(** * OED administration fragment: conversion table store, cumulative-reset
      window and preferences form

    A shallow embedding of three pieces of the repository:

    - [Cik], the model class of the conversion-coefficient table, with
      [mapRow], [getAll] and [insert], over a connection whose statements
      can be rejected;
    - [handleCumulativeReset], the daily reset-window predicate, together
      with the part of moment.js it calls (formatting, parsing with a
      format string when not strict, validity and comparison of moments);
    - the validity predicates and the Submit button of
      [PreferencesComponent].

    JavaScript numbers are IEEE 754 doubles; they are carried as
    [spec_float], whose [S754_nan] is JavaScript's NaN.  Part I holds the
    definitions, Part II what is proved of them. *)

From Stdlib Require Import ZArith List String Ascii Bool Lia.
From Stdlib Require Import Floats.SpecFloat.
From Stdlib Require Import Sorting.Sorted.
Import ListNotations.

Set Implicit Arguments.

(* ================================================================== *)
(** * Part I.  Definitions                                             *)
(* ================================================================== *)

(** ** JavaScript values met in the conversion array *)

Module Js.

(** A component of a cell of the conversion array: a number, or
    [undefined] when the cell array is too short to hold it. *)
Inductive value : Type :=
| undefined
| number (x : spec_float).

(** [ToNumber]: [undefined] becomes NaN, a number is itself. *)
Definition ToNumber (v : value) : spec_float :=
  match v with
  | undefined => S754_nan
  | number x => x
  end.

Definition is_nan (x : spec_float) : bool :=
  match x with
  | S754_nan => true
  | _ => false
  end.

(** The global [isNaN(v)]: coerce, then test for NaN. *)
Definition isNaN (v : value) : bool := is_nan (ToNumber v).

(** [a[i]] on an array: reading past the end gives [undefined]. *)
Definition index (a : list value) (i : nat) : value := nth i a undefined.

(** The outcome of calling a function: it returns, or it throws. *)
Inductive outcome (A E : Type) : Type :=
| Returns (a : A)
| Throws (e : E).
Arguments Returns {A E} a.
Arguments Throws {A E} e.

End Js.

(** ** The storage boundary *)

Module Db.

(** A row of the [cik] table, with the persisted column names. *)
Record row : Type := mkRow {
  meter_unit_id : nat;
  non_meter_unit_id : nat;
  slope : Js.value;
  intercept : Js.value
}.

(** The statements [Cik] sends, named after their SQL files, with the
    named parameters [insert] passes. *)
Inductive statement : Type :=
| delete_all_conversions
| insert_new_conversion (rowIndex columnIndex : nat) (slope intercept : Js.value)
| get_cik.

(** What a rejected statement carries. *)
Inductive error : Type :=
| PersistenceError (code : nat).

(** The connection as [Cik] sees it: the table, the statements executed
    so far (oldest first), and the outcomes the storage will give to the
    next statements ([Some e]: the statement is rejected with [e]; past
    the end of the list every statement succeeds). *)
Record conn : Type := mkConn {
  cik_table : list row;
  journal : list statement;
  faults : list (option error)
}.

(** Computations against a connection: a result or an error, and the
    connection as the computation left it.  An error does not undo what
    was done before it. *)
Definition M (A : Type) : Type := conn -> Js.outcome A error * conn.

Definition ret {A} (a : A) : M A := fun c => (Js.Returns a, c).

(** [await]: the continuation runs on success, an error is rethrown. *)
Definition bind {A B} (m : M A) (k : A -> M B) : M B :=
  fun c =>
    match m c with
    | (Js.Returns a, c') => k a c'
    | (Js.Throws e, c') => (Js.Throws e, c')
    end.

(** Modelled from the spec: the SQL files cik/delete_all_conversions.sql,
    cik/insert_new_conversion.sql and cik/get_cik.sql are not part of the
    sources.  Per the storage boundary of the spec, the first deletes all
    conversion rows, the second inserts one conversion row given
    (row, column, slope, intercept), and the third reads all rows. *)
Definition apply (s : statement) (t : list row) : list row :=
  match s with
  | delete_all_conversions => []
  | insert_new_conversion r c sl ic => t ++ [mkRow r c sl ic]
  | get_cik => t
  end.

(** One statement sent to the storage: rejected if the storage says so,
    executed and journalled otherwise; the rows read are those of the
    table after the statement. *)
Definition exec (s : statement) : M (list row) :=
  fun c =>
    match faults c with
    | Some e :: rest => (Js.Throws e, mkConn (cik_table c) (journal c) rest)
    | _ =>
        let t := apply s (cik_table c) in
        (Js.Returns t, mkConn t (journal c ++ [s]) (tl (faults c)))
    end.

(** [conn.none(query, params)]: resolves with nothing. *)
Definition none (s : statement) : M unit := bind (exec s) (fun _ => ret tt).

(** [conn.any(query)]: resolves with the rows. *)
Definition any (s : statement) : M (list row) := exec s.

End Db.

Declare Scope db_scope.
Delimit Scope db_scope with db.
Notation "x <- m ;; k" := (Db.bind m (fun x => k))
  (at level 61, m at next level, right associativity) : db_scope.
Notation "m ;; k" := (Db.bind m (fun _ => k))
  (at level 61, right associativity) : db_scope.

(** ** Cik: the conversion model *)

Module Cik.

Local Open Scope db_scope.

(** [new Cik(meterUnitId, nonMeterUnitId, slope, intercept)]. *)
Record t : Type := mk {
  meterUnitId : nat;
  nonMeterUnitId : nat;
  slope : Js.value;
  intercept : Js.value
}.

(** A cell of the conversion array: [0] is slope, [1] is intercept,
    [2] is not used here. *)
Definition cell : Type := list Js.value.

Definition mapRow (row : Db.row) : t :=
  mk (Db.meter_unit_id row) (Db.non_meter_unit_id row) (Db.slope row) (Db.intercept row).

Definition getAll : Db.M (list t) :=
  rows <- Db.any Db.get_cik ;;
  Db.ret (map mapRow rows).

(** The body of the inner loop at [column], then the rest of the row. *)
Fixpoint insert_columns (row column : nat) (cells : list cell) : Db.M unit :=
  match cells with
  | [] => Db.ret tt
  | c :: cells' =>
      (if negb (Js.isNaN (Js.index c 0))
       then Db.none (Db.insert_new_conversion row column (Js.index c 0) (Js.index c 1))
       else Db.ret tt) ;;
      insert_columns row (S column) cells'
  end.

(** The outer loop from [row] on. *)
Fixpoint insert_rows (row : nat) (rows : list (list cell)) : Db.M unit :=
  match rows with
  | [] => Db.ret tt
  | cells :: rows' =>
      insert_columns row 0 cells ;;
      insert_rows (S row) rows'
  end.

Definition insert (cik : list (list cell)) : Db.M unit :=
  Db.none Db.delete_all_conversions ;;
  insert_rows 0 cik.

(** *** The intended contents, after the words of the spec

    Row-major, one coefficient per cell whose slope is a number other
    than NaN. *)

Definition defined (c : cell) : bool :=
  match Js.index c 0 with
  | Js.number x => negb (Js.is_nan x)
  | Js.undefined => false
  end.

Definition coefficient (row column : nat) (c : cell) : Db.row :=
  Db.mkRow row column (Js.index c 0) (Js.index c 1).

Fixpoint row_coefficients (row column : nat) (cells : list cell) : list Db.row :=
  match cells with
  | [] => []
  | c :: cells' =>
      (if defined c then [coefficient row column c] else [])
        ++ row_coefficients row (S column) cells'
  end.

Fixpoint coefficients_from (row : nat) (rows : list (list cell)) : list Db.row :=
  match rows with
  | [] => []
  | cells :: rows' => row_coefficients row 0 cells ++ coefficients_from (S row) rows'
  end.

Definition coefficients (cik : list (list cell)) : list Db.row :=
  coefficients_from 0 cik.

(** The cell of the array a stored row stands for. *)
Definition key (r : Db.row) : nat * nat :=
  (Db.meter_unit_id r, Db.non_meter_unit_id r).

Definition insert_statement (r : Db.row) : Db.statement :=
  Db.insert_new_conversion (Db.meter_unit_id r) (Db.non_meter_unit_id r)
                           (Db.slope r) (Db.intercept r).

(** Sending the inserts of a list of rows, one after the other. *)
Fixpoint insert_all (rs : list Db.row) : Db.M unit :=
  match rs with
  | [] => Db.ret tt
  | r :: rs' => Db.none (insert_statement r) ;; insert_all rs'
  end.

End Cik.

(** ** The part of moment.js that [handleCumulativeReset] calls

    A valid moment shows calendar fields at an offset from UTC of its own,
    and its instant is a function of the two.  A moment made from another
    moment keeps that offset; a moment made from a string is in the zone of
    the process, which is taken with a fixed offset (a zone whose offset
    changes during the year is not covered).  Of the parsing flags only
    those that decide validity when not strict are kept. *)

Module Moment.

Local Open Scope string_scope.
Local Open Scope Z_scope.

(** The calendar fields of a moment; [month] counts from 0 as in
    [moment#month()]. *)
Record fields : Type := mkFields {
  year : Z;
  month : Z;
  date : Z;
  hour : Z;
  minute : Z;
  second : Z;
  millisecond : Z
}.

(** A moment object: invalid, or valid with the fields it shows and its
    offset from UTC in minutes, east positive ([moment#utcOffset()]). *)
Inductive t : Type :=
| Invalid
| Valid (f : fields) (utcOffset : Z).

Definition isValid (m : t) : bool :=
  match m with
  | Invalid => false
  | Valid _ _ => true
  end.

(** [moment(m)] on a moment: a copy, with the same offset. *)
Definition clone (m : t) : t := m.

(** *** Calendar *)

Definition isLeapYear (y : Z) : bool :=
  ((Z.rem y 4 =? 0) && negb (Z.rem y 100 =? 0)) || (Z.rem y 400 =? 0).

Definition daysInMonth (y m : Z) : Z :=
  let modMonth := m mod 12 in
  let y' := y + (m - modMonth) / 12 in
  if modMonth =? 1
  then (if isLeapYear y' then 29 else 28)
  else 31 - Z.rem (Z.rem modMonth 7) 2.

(** Days from 1970-01-01 to the given date of the proleptic Gregorian
    calendar ([m] counts from 1 here). *)
Definition daysFromCivil (y m d : Z) : Z :=
  let y' := if m <=? 2 then y - 1 else y in
  let era := y' / 400 in
  let yoe := y' - era * 400 in
  let mp := (m + 9) mod 12 in
  let doy := (153 * mp + 2) / 5 + d - 1 in
  let doe := yoe * 365 + yoe / 4 - yoe / 100 + doy in
  era * 146097 + doe - 719468.

(** [Date.UTC] of the fields: milliseconds from the epoch to the fields
    read on the clock of UTC. *)
Definition time (f : fields) : Z :=
  daysFromCivil (year f) (month f + 1) (date f) * 86400000
  + hour f * 3600000 + minute f * 60000 + second f * 1000 + millisecond f.

(** [moment#valueOf()]: the instant, in milliseconds since the epoch, at
    which a clock [utcOffset] minutes ahead of UTC shows [f]. *)
Definition valueOf (f : fields) (utcOffset : Z) : Z :=
  time f - utcOffset * 60000.

(** The day after, at the same time of day. *)
Definition addDay (f : fields) : fields :=
  if date f <? daysInMonth (year f) (month f)
  then mkFields (year f) (month f) (date f + 1)
                (hour f) (minute f) (second f) (millisecond f)
  else if month f <? 11
  then mkFields (year f) (month f + 1) 1
                (hour f) (minute f) (second f) (millisecond f)
  else mkFields (year f + 1) 0 1
                (hour f) (minute f) (second f) (millisecond f).

(** The date of [f] is a date of the calendar. *)
Definition calendar_date (f : fields) : Prop :=
  0 <= month f <= 11 /\ 1 <= date f <= daysInMonth (year f) (month f).

(** The year of [f] is one that [YYYY] writes with four digits. *)
Definition four_digit_year (f : fields) : Prop := 0 <= year f <= 9999.

(** *** Comparison: [isSame], [isAfter], [isBefore] at millisecond
    precision, on the instants of the two sides; each is false as soon as
    one side is invalid. *)

Definition isAfter (a b : t) : bool :=
  match a, b with
  | Valid fa oa, Valid fb ob => valueOf fb ob <? valueOf fa oa
  | _, _ => false
  end.

Definition isBefore (a b : t) : bool :=
  match a, b with
  | Valid fa oa, Valid fb ob => valueOf fa oa <? valueOf fb ob
  | _, _ => false
  end.

Definition isSame (a b : t) : bool :=
  match a, b with
  | Valid fa oa, Valid fb ob => valueOf fa oa =? valueOf fb ob
  | _, _ => false
  end.

Definition isSameOrAfter (a b : t) : bool := isSame a b || isAfter a b.

Definition isSameOrBefore (a b : t) : bool := isSame a b || isBefore a b.

(** *** Formatting *)

Definition digit_char (d : Z) : ascii := ascii_of_nat (48 + Z.to_nat d).

(** The decimal digits of [n >= 0] in front of [acc]; [fuel] bounds the
    number of digits after the first. *)
Fixpoint decimal_digits (fuel : nat) (n : Z) (acc : string) : string :=
  let acc' := String (digit_char (n mod 10)) acc in
  match fuel with
  | O => acc'
  | S k => if n <? 10 then acc' else decimal_digits k (n / 10) acc'
  end.

(** ['' + n] for an integer [n >= 0]. *)
Definition toString (n : Z) : string :=
  decimal_digits (Z.to_nat (Z.log2 n)) n "".

Fixpoint zeros (k : nat) : string :=
  match k with
  | O => ""
  | S k' => String "0" (zeros k')
  end.

(** [zeroFill(number, targetLength)]: the sign if negative, then the
    absolute value padded with zeros to [targetLength] digits. *)
Definition zeroFill (number : Z) (targetLength : nat) : string :=
  let absNumber := toString (Z.abs number) in
  let zerosToFill := (targetLength - String.length absNumber)%nat in
  (if 0 <=? number then "" else "-") ++ zeros zerosToFill ++ absNumber.

(** The tokens of the two format strings in use. *)
Inductive token : Type :=
| MM
| DD
| YYYY
| HH
| mm
| ss
| literal (c : ascii).

Definition formatToken (f : fields) (tok : token) : string :=
  match tok with
  | MM => zeroFill (month f + 1) 2
  | DD => zeroFill (date f) 2
  | YYYY => zeroFill (year f) 4
  | HH => zeroFill (hour f) 2
  | mm => zeroFill (minute f) 2
  | ss => zeroFill (second f) 2
  | literal c => String c ""
  end.

(** [m.format(f)]: the fields as the moment shows them at its own
    offset; an invalid moment formats as the locale's "Invalid date". *)
Definition format (m : t) (fmt : list token) : string :=
  match m with
  | Invalid => "Invalid date"
  | Valid f _ => String.concat "" (map (formatToken f) fmt)
  end.

(** *** Parsing a string with a format, not strict *)

Definition is_digit (c : ascii) : bool :=
  ((48 <=? nat_of_ascii c) && (nat_of_ascii c <=? 57))%nat.

Definition digit_value (c : ascii) : Z := Z.of_nat (nat_of_ascii c) - 48.

(** [toInt] on a string of digits. *)
Definition toInt (s : string) : Z :=
  fold_left (fun acc c => 10 * acc + digit_value c) (list_ascii_of_string s) 0.

(** The longest prefix of at most [n] digits, and what follows it. *)
Fixpoint take_digits (n : nat) (s : string) : string * string :=
  match n, s with
  | S n', String c s' =>
      if is_digit c
      then let (m, r) := take_digits n' s' in (String c m, r)
      else ("", s)
  | _, _ => ("", s)
  end.

(** [s.match(/\d{1,n}/)]: the leftmost run of digits, cut at [n]; the
    matched text and the input after it. *)
Fixpoint match_digits (n : nat) (s : string) : option (string * string) :=
  match s with
  | "" => None
  | String c s' => if is_digit c then Some (take_digits n s) else match_digits n s'
  end.

(** [s.match] of a literal character of the format: its first
    occurrence; the input after it. *)
Fixpoint match_literal (c : ascii) (s : string) : option string :=
  match s with
  | "" => None
  | String a s' => if Ascii.eqb a c then Some s' else match_literal c s'
  end.

Fixpoint all_digits (s : string) : bool :=
  match s with
  | "" => true
  | String c s' => is_digit c && all_digits s'
  end.

(** The year that [YYYY] reads in what [YYYY] wrote for year [y]. *)
Definition year_read_back (y : Z) : Z :=
  match match_digits 4 (zeroFill y 4) with
  | Some (parsedInput, _) => toInt parsedInput
  | None => 0
  end.

(** The parsing configuration: the input not yet consumed, the array
    [_a] of parsed parts, and the parsing flag [empty]. *)
Record config : Type := mkConfig {
  input : string;
  a_year : option Z;
  a_month : option Z;
  a_date : option Z;
  a_hour : option Z;
  a_minute : option Z;
  a_second : option Z;
  empty : bool
}.

Definition parseTwoDigitYear (s : string) : Z :=
  toInt s + (if 68 <? toInt s then 1900 else 2000).

(** The longest match each numeric token asks for when not strict. *)
Definition width (tok : token) : nat :=
  match tok with
  | YYYY => 4
  | _ => 2
  end.

(** [addTimeToArrayFromToken]. *)
Definition store (tok : token) (parsedInput rest : string) (cfg : config) : config :=
  let v := toInt parsedInput in
  match tok with
  | MM => mkConfig rest (a_year cfg) (Some (v - 1)) (a_date cfg)
                   (a_hour cfg) (a_minute cfg) (a_second cfg) false
  | DD => mkConfig rest (a_year cfg) (a_month cfg) (Some v)
                   (a_hour cfg) (a_minute cfg) (a_second cfg) false
  | YYYY =>
      let y := if (String.length parsedInput =? 2)%nat
               then parseTwoDigitYear parsedInput else v in
      mkConfig rest (Some y) (a_month cfg) (a_date cfg)
               (a_hour cfg) (a_minute cfg) (a_second cfg) false
  | HH => mkConfig rest (a_year cfg) (a_month cfg) (a_date cfg)
                   (Some v) (a_minute cfg) (a_second cfg) false
  | mm => mkConfig rest (a_year cfg) (a_month cfg) (a_date cfg)
                   (a_hour cfg) (Some v) (a_second cfg) false
  | ss => mkConfig rest (a_year cfg) (a_month cfg) (a_date cfg)
                   (a_hour cfg) (a_minute cfg) (Some v) false
  | literal _ => cfg
  end.

(** One turn of the loop of [configFromStringAndFormat]: the token's
    pattern is searched in the remaining input; on a match the input is
    cut after it (what was skipped is only recorded as unused); a token
    that matches nothing leaves the configuration as it is. *)
Definition parseToken (cfg : config) (tok : token) : config :=
  match tok with
  | literal c =>
      match match_literal c (input cfg) with
      | Some rest =>
          mkConfig rest (a_year cfg) (a_month cfg) (a_date cfg)
                   (a_hour cfg) (a_minute cfg) (a_second cfg) (empty cfg)
      | None => cfg
      end
  | _ =>
      match match_digits (width tok) (input cfg) with
      | Some (parsedInput, rest) => store tok parsedInput rest cfg
      | None => cfg
      end
  end.

Definition orElse (o : option Z) (d : Z) : Z :=
  match o with
  | Some v => v
  | None => d
  end.

(** [configFromArray]: year, month and day default to the current date
    as long as no larger unit was parsed; whatever else is missing is
    the first of its range. *)
Definition configFromArray (currentDate : fields) (cfg : config) : fields :=
  let y := orElse (a_year cfg) (year currentDate) in
  let m :=
    match a_year cfg, a_month cfg with
    | None, None => month currentDate
    | _, o => orElse o 0
    end in
  let d :=
    match a_year cfg, a_month cfg, a_date cfg with
    | None, None, None => date currentDate
    | _, _, o => orElse o 1
    end in
  mkFields y m d (orElse (a_hour cfg) 0) (orElse (a_minute cfg) 0)
           (orElse (a_second cfg) 0) 0.

(** [checkOverflow]: true when a part is out of its range.  Hour 24 is
    in range at 24:00:00.000 only. *)
Definition overflow (f : fields) : bool :=
  (month f <? 0) || (11 <? month f)
  || (date f <? 1) || (daysInMonth (year f) (month f) <? date f)
  || (hour f <? 0) || (24 <? hour f)
  || ((hour f =? 24)
      && (negb (minute f =? 0) || negb (second f =? 0) || negb (millisecond f =? 0)))
  || (minute f <? 0) || (59 <? minute f)
  || (second f <? 0) || (59 <? second f)
  || (millisecond f <? 0) || (999 <? millisecond f).

(** [moment(string, format)]: valid when some token parsed some input
    and nothing overflows; 24:00:00 is 00:00:00 of the next day.  The
    fields parsed are fields of the process's zone, at [localOffset]
    minutes from UTC. *)
Definition parse (localOffset : Z) (currentDate : fields)
           (s : string) (fmt : list token) : t :=
  let cfg := fold_left parseToken fmt
               (mkConfig s None None None None None None true) in
  let f := configFromArray currentDate cfg in
  if empty cfg || overflow f then Invalid
  else if hour f =? 24
  then Valid (addDay (mkFields (year f) (month f) (date f) 0 0 0 0)) localOffset
  else Valid f localOffset.

(** ["MM-DD-YYYY"] and ["MM/DD/YYYY HH:mm:ss"] cut into tokens. *)
Definition MM_DD_YYYY : list token :=
  [MM; literal "-"; DD; literal "-"; YYYY].

Definition MM_DD_YYYY_HH_mm_ss : list token :=
  [MM; literal "/"; DD; literal "/"; YYYY; literal " ";
   HH; literal ":"; mm; literal ":"; ss].

End Moment.

(** ** handleCumulativeReset *)

Module Reset.

Local Open Scope string_scope.

Section HandleCumulativeReset.

(** The offset from UTC of the zone the process runs in, in minutes. *)
Variable localOffset : Z.

(** The date of the day the function runs on; moment reads it only
    when the string to parse holds no year. *)
Variable currentDate : Moment.fields.

Definition handleCumulativeReset (cumulativeReset : bool)
           (resetStart resetEnd : string) (startTimestamp : Moment.t) : bool :=
  if negb cumulativeReset then false
  else
    let testStart := Moment.clone startTimestamp in
    let testResetStart :=
      Moment.parse localOffset currentDate
        (Moment.format testStart Moment.MM_DD_YYYY ++ " " ++ resetStart)
        Moment.MM_DD_YYYY_HH_mm_ss in
    let testResetEnd :=
      Moment.parse localOffset currentDate
        (Moment.format testStart Moment.MM_DD_YYYY ++ " " ++ resetEnd)
        Moment.MM_DD_YYYY_HH_mm_ss in
    if Moment.isSameOrAfter testStart testResetStart
       && Moment.isSameOrBefore testStart testResetEnd
    then true
    else false.

(** The error a caller would have to catch, if one were raised. *)
Inductive ValidationError : Type :=
| validation_error.

(** What a caller observes.  The function has no [throw], and the
    moment constructors, [format] and the comparisons it calls do not
    throw on these arguments: every call returns. *)
Definition call (cumulativeReset : bool) (resetStart resetEnd : string)
           (startTimestamp : Moment.t) : Js.outcome bool ValidationError :=
  Js.Returns (handleCumulativeReset cumulativeReset resetStart resetEnd startTimestamp).

End HandleCumulativeReset.

(** *** The window, after the words of the spec *)

(** A time of day [h:m:s] written as HH:mm:ss. *)
Definition time_of_day (h m s : Z) : string :=
  Moment.zeroFill h 2 ++ ":" ++ Moment.zeroFill m 2 ++ ":" ++ Moment.zeroFill s 2.

(** [h:m:s] is a time of the clock. *)
Definition clock_time (h m s : Z) : Prop :=
  (0 <= h <= 23 /\ 0 <= m <= 59 /\ 0 <= s <= 59)%Z.

(** Seconds since midnight. *)
Definition seconds_of_day (h m s : Z) : Z := (h * 3600 + m * 60 + s)%Z.

(** The fields of [h:m:s] on the calendar date of [f]. *)
Definition on_date_of (f : Moment.fields) (h m s : Z) : Moment.fields :=
  Moment.mkFields (Moment.year f) (Moment.month f) (Moment.date f) h m s 0.

End Reset.

(** ** PreferencesComponent: the validity predicates and the Submit button *)

Module Preferences.

(** [moment.duration(v)] as the form reads it. *)
Record Duration : Type := mkDuration {
  duration_isValid : bool;
  asSeconds : spec_float
}.

(** The fields of [PreferenceRequestItem] the predicates read; [V] is
    the type of what a field holds (the text typed in an input, or what
    the server sent). *)
Record PreferenceRequestItem (V : Type) : Type := mkItem {
  defaultMeterReadingFrequency : V;
  defaultMeterMinimumValue : V;
  defaultMeterMaximumValue : V;
  defaultMeterMinimumDate : V;
  defaultMeterMaximumDate : V;
  defaultMeterReadingGap : V;
  defaultMeterMaximumErrors : V;
  defaultWarningFileSize : V;
  defaultFileSizeLimit : V
}.

(** The state of the component that the buttons read. *)
Record state (V : Type) : Type := mkState {
  localAdminPref : PreferenceRequestItem V;
  hasChanges : bool
}.

Section Component.

Variable V : Type.

(** JavaScript's [Number(v)], moment's [moment(v)] and
    [moment.duration(v)]. *)
Variable Number : V -> spec_float.
Variable moment : V -> Moment.t.
Variable duration : V -> Duration.

(** The bounds imported from redux/selectors/adminSelectors. *)
Variables MIN_VAL MAX_VAL MAX_ERRORS : spec_float.
Variables MIN_DATE_MOMENT MAX_DATE_MOMENT : Moment.t.

Variable pref : PreferenceRequestItem V.

Definition zero : spec_float := S754_zero false.

(** [a < b] and [a > b] on numbers; false when a side is NaN. *)
Definition lt (a b : spec_float) : bool := SFltb a b.
Definition gt (a b : spec_float) : bool := SFltb b a.
Definition le (a b : spec_float) : bool := SFleb a b.

Definition invalidReadingFreq : bool :=
  let frequency := duration (defaultMeterReadingFrequency pref) in
  negb (duration_isValid frequency) || le (asSeconds frequency) zero.

Definition invalidMinValue : bool :=
  let min := Number (defaultMeterMinimumValue pref) in
  let max := Number (defaultMeterMaximumValue pref) in
  lt min MIN_VAL || gt min max.

Definition invalidMaxValue : bool :=
  let min := Number (defaultMeterMinimumValue pref) in
  let max := Number (defaultMeterMaximumValue pref) in
  gt max MAX_VAL || gt min max.

Definition invalidMinDate : bool :=
  let minMoment := moment (defaultMeterMinimumDate pref) in
  let maxMoment := moment (defaultMeterMaximumDate pref) in
  negb (Moment.isValid minMoment)
  || negb (Moment.isSameOrAfter minMoment MIN_DATE_MOMENT)
  || negb (Moment.isSameOrBefore minMoment maxMoment).

Definition invalidMaxDate : bool :=
  let minMoment := moment (defaultMeterMinimumDate pref) in
  let maxMoment := moment (defaultMeterMaximumDate pref) in
  negb (Moment.isValid maxMoment)
  || negb (Moment.isSameOrBefore maxMoment MAX_DATE_MOMENT)
  || negb (Moment.isSameOrAfter maxMoment minMoment).

Definition invalidReadingGap : bool :=
  lt (Number (defaultMeterReadingGap pref)) zero.

Definition invalidMeterErrors : bool :=
  lt (Number (defaultMeterMaximumErrors pref)) zero
  || gt (Number (defaultMeterMaximumErrors pref)) MAX_ERRORS.

Definition invalidFileSizeLimit : bool :=
  lt (Number (defaultFileSizeLimit pref)) zero.

Definition invalidWarningFileSize : bool :=
  lt (Number (defaultWarningFileSize pref)) zero
  || gt (Number (defaultWarningFileSize pref)) (Number (defaultFileSizeLimit pref)).

End Component.

Section Buttons.

Variable V : Type.
Variable Number : V -> spec_float.
Variable moment : V -> Moment.t.
Variable duration : V -> Duration.
Variables MIN_VAL MAX_VAL MAX_ERRORS : spec_float.
Variables MIN_DATE_MOMENT MAX_DATE_MOMENT : Moment.t.

(** The [disabled] attribute of the Submit button. *)
Definition submitDisabled (st : state V) : bool :=
  let pref := localAdminPref st in
  negb (hasChanges st)
  || invalidReadingFreq duration pref
  || invalidMinValue Number MIN_VAL pref
  || invalidMaxValue Number MAX_VAL pref
  || invalidMinDate moment MIN_DATE_MOMENT pref
  || invalidMaxDate moment MAX_DATE_MOMENT pref
  || invalidReadingGap Number pref
  || invalidMeterErrors Number MAX_ERRORS pref
  || invalidFileSizeLimit Number pref
  || invalidWarningFileSize Number pref.

(** A click on the Submit button: a disabled button fires no
    [onClick]; an enabled one calls [submitPreferences] with the local
    preferences.  The result is the request sent, if any. *)
Definition clickSubmit (st : state V) : option (PreferenceRequestItem V) :=
  if submitDisabled st then None else Some (localAdminPref st).

(** The [disabled] attribute of the Discard button. *)
Definition discardDisabled (st : state V) : bool := negb (hasChanges st).

End Buttons.

End Preferences.

(** ** Further notions on the store *)

Module Store.

(** Row-major order on the cells of the array. *)
Definition key_lt (a b : nat * nat) : Prop :=
  fst a < fst b \/ (fst a = fst b /\ snd a < snd b).

(** What [insert] writes for a defined cell: its slope and intercept. *)
Definition payload (c : Cik.cell) : Js.value * Js.value :=
  (Js.index c 0, Js.index c 1).

Definition stored (r : Db.row) : Js.value * Js.value :=
  (Db.slope r, Db.intercept r).

End Store.

(** ** Further notions on moments and window strings *)

Module Clock.

Local Open Scope string_scope.
Local Open Scope Z_scope.

(** The format ["MM/DD/YYYY HH:mm:ss"] in two parts: the tokens up to the
    blank, and those of the time of day. *)
Definition date_tokens : list Moment.token :=
  [Moment.MM; Moment.literal "/"; Moment.DD; Moment.literal "/";
   Moment.YYYY; Moment.literal " "].

Definition time_tokens : list Moment.token :=
  [Moment.HH; Moment.literal ":"; Moment.mm; Moment.literal ":"; Moment.ss].

(** The time fields of [f] are those of a time of the clock. *)
Definition clock_fields (f : Moment.fields) : Prop :=
  0 <= Moment.hour f <= 23 /\ 0 <= Moment.minute f <= 59
  /\ 0 <= Moment.second f <= 59 /\ 0 <= Moment.millisecond f <= 999.




(** Two offsets from UTC, in minutes, less than two days apart; any two
    offsets in use are (they lie between -12:00 and +14:00). *)
Definition offsets_apart (a b : Z) : Prop := -2880 < a - b < 2880.

End Clock.

(** ** PreferencesComponent: the local copy, its edits and the effects

    The preferences are an object read by key.  Only the keys the form
    edits are kept: the component changes no other key, so on any other
    key the local copy and the server's preferences stay equal.  A state is
    taken after the effects of a render have run. *)

Module Form.

Inductive key : Type :=
| defaultChartToRender
| defaultBarStacking
| defaultAreaNormalization
| defaultAreaUnit
| defaultMeterReadingFrequency
| defaultMeterMinimumValue
| defaultMeterMaximumValue
| defaultMeterMinimumDate
| defaultMeterMaximumDate
| defaultMeterReadingGap
| defaultMeterMaximumErrors
| defaultMeterDisableChecks
| displayTitle
| defaultLanguage
| defaultTimezone
| defaultWarningFileSize
| defaultFileSizeLimit
| defaultHelpUrl.

Definition keys : list key :=
  [defaultChartToRender; defaultBarStacking; defaultAreaNormalization;
   defaultAreaUnit; defaultMeterReadingFrequency; defaultMeterMinimumValue;
   defaultMeterMaximumValue; defaultMeterMinimumDate; defaultMeterMaximumDate;
   defaultMeterReadingGap; defaultMeterMaximumErrors; defaultMeterDisableChecks;
   displayTitle; defaultLanguage; defaultTimezone; defaultWarningFileSize;
   defaultFileSizeLimit; defaultHelpUrl].

Definition key_eq_dec (a b : key) : {a = b} + {a <> b}.
Proof. decide equality. Defined.

(** The keys whose values the validity predicates read. *)
Definition validated (k : key) : bool :=
  match k with
  | defaultMeterReadingFrequency | defaultMeterMinimumValue
  | defaultMeterMaximumValue | defaultMeterMinimumDate
  | defaultMeterMaximumDate | defaultMeterReadingGap
  | defaultMeterMaximumErrors | defaultWarningFileSize
  | defaultFileSizeLimit => true
  | _ => false
  end.

Section Component.

Variable V : Type.

(** lodash's [isEqual] on the values of two fields. *)
Variable isEqualV : V -> V -> bool.

Definition object : Type := key -> V.

(** [{ ...o, [k]: v }]. *)
Definition spread (o : object) (k : key) (v : V) : object :=
  fun k' => if key_eq_dec k' k then v else o k'.

(** [isEqual(a, b)]: equal on every key. *)
Definition isEqual (a b : object) : bool :=
  forallb (fun k => isEqualV (a k) (b k)) keys.

Definition cloneDeep (o : object) : object := o.

(** The query's data and the two pieces of state. *)
Record state : Type := mkState {
  adminPreferences : object;
  localAdminPref : object;
  hasChanges : bool
}.

(** The second effect: [setHasChanges(!isEqual(adminPreferences,
    localAdminPref))]. *)
Definition compareEffect (st : state) : state :=
  mkState (adminPreferences st) (localAdminPref st)
          (negb (isEqual (adminPreferences st) (localAdminPref st))).

(** The first effect: [setLocalAdminPref(cloneDeep(adminPreferences))];
    the second follows it. *)
Definition resetEffect (st : state) : state :=
  compareEffect
    (mkState (adminPreferences st) (cloneDeep (adminPreferences st)) (hasChanges st)).

(** The first render with the query's data: the initial state, then both
    effects. *)
Definition mount (data : object) : state :=
  resetEffect (mkState data (cloneDeep data) false).

(** The query answers anew (after a submission, say). *)
Definition receive (data : object) (st : state) : state :=
  resetEffect (mkState data (localAdminPref st) (hasChanges st)).

Definition makeLocalChanges (k : key) (value : V) (st : state) : state :=
  compareEffect
    (mkState (adminPreferences st) (spread (localAdminPref st) k value)
             (hasChanges st)).

Definition discardChanges (st : state) : state :=
  compareEffect
    (mkState (adminPreferences st) (cloneDeep (adminPreferences st))
             (hasChanges st)).

(** What the user does, and what the query does. *)
Inductive event : Type :=
| Edit (k : key) (value : V)
| Discard
| Response (data : object).

Definition step (st : state) (e : event) : state :=
  match e with
  | Edit k value => makeLocalChanges k value st
  | Discard => discardChanges st
  | Response data => receive data st
  end.

(** The state after a history of events on a form mounted with [data]. *)
Definition run (data : object) (history : list event) : state :=
  fold_left step history (mount data).

(** The fields of the local copy that the predicates read. *)
Definition item (o : object) : Preferences.PreferenceRequestItem V :=
  Preferences.mkItem
    (o defaultMeterReadingFrequency) (o defaultMeterMinimumValue)
    (o defaultMeterMaximumValue) (o defaultMeterMinimumDate)
    (o defaultMeterMaximumDate) (o defaultMeterReadingGap)
    (o defaultMeterMaximumErrors) (o defaultWarningFileSize)
    (o defaultFileSizeLimit).

(** What the buttons read of a state. *)
Definition buttons (st : state) : Preferences.state V :=
  Preferences.mkState (item (localAdminPref st)) (hasChanges st).

Variable Number : V -> spec_float.
Variable moment : V -> Moment.t.
Variable duration : V -> Preferences.Duration.
Variables MIN_VAL MAX_VAL MAX_ERRORS : spec_float.
Variables MIN_DATE_MOMENT MAX_DATE_MOMENT : Moment.t.

(** The nine predicates together. *)
Definition invalid (o : object) : bool :=
  Preferences.invalidReadingFreq duration (item o)
  || Preferences.invalidMinValue Number MIN_VAL (item o)
  || Preferences.invalidMaxValue Number MAX_VAL (item o)
  || Preferences.invalidMinDate moment MIN_DATE_MOMENT (item o)
  || Preferences.invalidMaxDate moment MAX_DATE_MOMENT (item o)
  || Preferences.invalidReadingGap Number (item o)
  || Preferences.invalidMeterErrors Number MAX_ERRORS (item o)
  || Preferences.invalidFileSizeLimit Number (item o)
  || Preferences.invalidWarningFileSize Number (item o).

(** A click on Submit: [submitPreferences(localAdminPref)] unless the
    button is disabled. *)
Definition submit (st : state) : option object :=
  if Preferences.submitDisabled Number moment duration MIN_VAL MAX_VAL
       MAX_ERRORS MIN_DATE_MOMENT MAX_DATE_MOMENT (buttons st)
  then None
  else Some (localAdminPref st).

End Component.

End Form.

(** ** Sample data, used to run the definitions *)

Module Sample.

(** The doubles 1.5 and 0.2. *)
Definition one_and_half : spec_float := S754_finite false 6755399441055744 (-52).
Definition one_fifth : spec_float := S754_finite false 7205759403792794 (-55).

Definition no_conversion : Cik.cell :=
  [Js.number S754_nan; Js.number S754_nan; Js.number S754_nan].

Definition conversion : Cik.cell :=
  [Js.number one_and_half; Js.number one_fifth; Js.number (S754_zero false)].

Definition identity : Cik.cell :=
  [Js.number (S754_finite false 4503599627370496 (-52));
   Js.number (S754_zero false); Js.number (S754_zero false)].

(** One defined cell at row 2, column 5; NaN everywhere else. *)
Definition matrix : list (list Cik.cell) :=
  [repeat no_conversion 6; repeat no_conversion 6;
   repeat no_conversion 5 ++ [conversion]].

(** Two defined cells, a NaN cell and a cell with no slope at all. *)
Definition other_matrix : list (list Cik.cell) :=
  [[identity; no_conversion]; [[]; conversion]].

Definition fresh : Db.conn := Db.mkConn [] [] [].

(** A connection whose table already holds a row. *)
Definition used : Db.conn :=
  Db.mkConn [Db.mkRow 7 9 (Js.number one_fifth) (Js.number one_and_half)] [] [].

Definition refused : Db.error := Db.PersistenceError 3.

(** The delete and one insert are accepted, the next statement is not. *)
Definition failing : Db.conn :=
  Db.mkConn (Db.cik_table used) [] [None; None; Some refused].

(** A server on the clock of UTC and one two hours ahead of it. *)
Definition utc : Z := 0.
Definition two_hours_ahead : Z := 120.

(** The day the server runs on, and readings starting on 2023-05-01 at
    23:30:00, at 12:00:00 and at 23:00:00. *)
Definition today : Moment.fields := Moment.mkFields 2024 0 15 0 0 0 0.
Definition late_evening : Moment.fields := Moment.mkFields 2023 4 1 23 30 0 0.


(** A stand-in for the form: every field holds an integer; [Number]
    reads it as a double, [moment] as the first day of that year and
    [moment.duration] as that many seconds. *)
Definition number_of (z : Z) : spec_float := binary_normalize 53 1024 z 0 false.
Definition moment_of (z : Z) : Moment.t :=
  Moment.Valid (Moment.mkFields z 0 1 0 0 0 0) 0.
Definition duration_of (z : Z) : Preferences.Duration :=
  Preferences.mkDuration true (number_of z).

Definition MIN_VAL : spec_float := number_of (-9007199254740991).
Definition MAX_VAL : spec_float := number_of 9007199254740991.
Definition MAX_ERRORS : spec_float := number_of 75.
Definition MIN_DATE_MOMENT : Moment.t := moment_of 1970.
Definition MAX_DATE_MOMENT : Moment.t := moment_of 6970.

(** Reading frequency 900 s, values in [-100, 100], dates from 1980 to
    2030, gap 0, 75 errors, warning at 5 of a limit of 25. *)
Definition preferences : Preferences.PreferenceRequestItem Z :=
  (Preferences.mkItem 900 (-100) 100 1980 2030 0 75 5 25)%Z.

(** The same with a reading gap of -1. *)
Definition bad_gap : Preferences.PreferenceRequestItem Z :=
  (Preferences.mkItem 900 (-100) 100 1980 2030 (-1) 75 5 25)%Z.

End Sample.

(** ** Sample data for the form *)

Module FormSample.

Local Open Scope Z_scope.

(** What the server holds: the sample preferences, and 0 on the keys that
    are not validated. *)
Definition server : Form.object Z :=
  fun k =>
    match k with
    | Form.defaultMeterReadingFrequency => 900
    | Form.defaultMeterMinimumValue => -100
    | Form.defaultMeterMaximumValue => 100
    | Form.defaultMeterMinimumDate => 1980
    | Form.defaultMeterMaximumDate => 2030
    | Form.defaultMeterReadingGap => 0
    | Form.defaultMeterMaximumErrors => 75
    | Form.defaultWarningFileSize => 5
    | Form.defaultFileSizeLimit => 25
    | _ => 0
    end.

Definition submit (st : Form.state Z) : option (Form.object Z) :=
  Form.submit Sample.number_of Sample.moment_of Sample.duration_of
    Sample.MIN_VAL Sample.MAX_VAL Sample.MAX_ERRORS
    Sample.MIN_DATE_MOMENT Sample.MAX_DATE_MOMENT st.

(** A field whose text is no number, and a date that is no date. *)
Definition not_a_number (_ : Z) : spec_float := S754_nan.
Definition not_a_date (_ : Z) : Moment.t := Moment.Invalid.

(** Values of two kinds: a number, as a server may hold one, and the text
    an input delivers.  Two values are equal when they are of the same
    kind and the same; a text is not equal to a number, whatever its
    digits. *)
Inductive value : Type :=
| number (z : Z)
| text (s : string).

Definition isEqual (a b : value) : bool :=
  match a, b with
  | number x, number y => x =? y
  | text s, text r => String.eqb s r
  | _, _ => false
  end.

(** The server's preferences, all held as numbers. *)
Definition typed_server : Form.object value := fun k => number (server k).

Definition not_a_number_value (_ : value) : spec_float := S754_nan.
Definition not_a_date_value (_ : value) : Moment.t := Moment.Invalid.
Definition duration_of_value (_ : value) : Preferences.Duration :=
  Preferences.mkDuration false S754_nan.

End FormSample.

(* ================================================================== *)
(** * Part II.  Properties                                             *)
(* ================================================================== *)

(** ** The conversion table store *)

Section CikFacts.

Local Open Scope db_scope.

Lemma bind_ret_l (A B : Type) (a : A) (k : A -> Db.M B) (c : Db.conn) :
  Db.bind (Db.ret a) k c = k a c.
Proof. reflexivity. Qed.

Lemma bind_assoc (A B C : Type) (m : Db.M A) (k : A -> Db.M B)
      (h : B -> Db.M C) (c : Db.conn) :
  Db.bind (Db.bind m k) h c = Db.bind m (fun a => Db.bind (k a) h) c.
Proof.
  unfold Db.bind. destruct (m c) as [[a|e] c1]; reflexivity.
Qed.

(** Two computations that agree on every connection agree under a
    common prefix. *)
Lemma bind_ext (A B : Type) (m : Db.M A) (k k' : A -> Db.M B) (c : Db.conn) :
  (forall a c1, k a c1 = k' a c1) -> Db.bind m k c = Db.bind m k' c.
Proof.
  intros H. unfold Db.bind. destruct (m c) as [[a|e] c1]; auto.
Qed.

(** The guard of the loop body is the spec's "defined slope". *)
Lemma guard_is_defined (cell : Cik.cell) :
  negb (Js.isNaN (Js.index cell 0)) = Cik.defined cell.
Proof.
  unfold Cik.defined, Js.isNaN. destruct (Js.index cell 0); reflexivity.
Qed.

Lemma defined_number (cell : Cik.cell) :
  Cik.defined cell = true <->
  exists x, Js.index cell 0 = Js.number x /\ Js.is_nan x = false.
Proof.
  unfold Cik.defined. destruct (Js.index cell 0) as [|x].
  - split; [discriminate | intros (x & Hx & _); discriminate].
  - rewrite negb_true_iff. split.
    + intros H. now exists x.
    + intros (y & Hy & Hn). now injection Hy as ->.
Qed.

Lemma insert_all_app (rs rs' : list Db.row) (c : Db.conn) :
  Cik.insert_all (rs ++ rs') c = (Cik.insert_all rs ;; Cik.insert_all rs') c.
Proof.
  revert c. induction rs as [|r rs IH]; intros c; simpl.
  - reflexivity.
  - rewrite bind_assoc. apply bind_ext. intros _ c1. apply IH.
Qed.

(** The inner loop sends the inserts of the defined cells of its row. *)
Lemma insert_columns_inserts (row : nat) (cells : list Cik.cell) :
  forall column c,
    Cik.insert_columns row column cells c
    = Cik.insert_all (Cik.row_coefficients row column cells) c.
Proof.
  induction cells as [|cell cells IH]; intros column c; simpl.
  - reflexivity.
  - rewrite guard_is_defined. destruct (Cik.defined cell); simpl.
    + apply bind_ext. intros _ c1. apply IH.
    + rewrite bind_ret_l. apply IH.
Qed.

(** The outer loop sends them row after row. *)
Lemma insert_rows_inserts (rows : list (list Cik.cell)) :
  forall row c,
    Cik.insert_rows row rows c
    = Cik.insert_all (Cik.coefficients_from row rows) c.
Proof.
  induction rows as [|cells rows IH]; intros row c; simpl.
  - reflexivity.
  - rewrite insert_all_app. unfold Db.bind.
    rewrite insert_columns_inserts.
    destruct (Cik.insert_all _ c) as [[[]|e] c1]; [apply IH | reflexivity].
Qed.

Lemma insert_unfold (cik : list (list Cik.cell)) (c : Db.conn) :
  Cik.insert cik c
  = (Db.none Db.delete_all_conversions ;;
     Cik.insert_all (Cik.coefficients cik)) c.
Proof.
  unfold Cik.insert. apply bind_ext. intros _ c1. apply insert_rows_inserts.
Qed.

(** *** Running a sequence of inserts *)

Lemma none_returns (s : Db.statement) (c c' : Db.conn) :
  Db.none s c = (Js.Returns tt, c') ->
  c' = Db.mkConn (Db.apply s (Db.cik_table c)) (Db.journal c ++ [s]) (tl (Db.faults c))
  /\ hd None (Db.faults c) = None.
Proof.
  unfold Db.none, Db.bind, Db.exec, Db.ret.
  destruct (Db.faults c) as [|[e|] rest]; simpl; intros H;
    try discriminate; injection H as <-; auto.
Qed.

Lemma none_throws (s : Db.statement) (c : Db.conn) (e : Db.error) (rest : list (option Db.error)) :
  Db.faults c = Some e :: rest ->
  Db.none s c = (Js.Throws e, Db.mkConn (Db.cik_table c) (Db.journal c) rest).
Proof.
  intros H. unfold Db.none, Db.bind, Db.exec. now rewrite H.
Qed.

Lemma none_accepted (s : Db.statement) (c : Db.conn) :
  hd None (Db.faults c) = None ->
  Db.none s c
  = (Js.Returns tt,
     Db.mkConn (Db.apply s (Db.cik_table c)) (Db.journal c ++ [s]) (tl (Db.faults c))).
Proof.
  unfold Db.none, Db.bind, Db.exec, Db.ret.
  destruct (Db.faults c) as [|[e|] rest]; simpl; intros H;
    try discriminate; reflexivity.
Qed.

Lemma insert_statement_apply (r : Db.row) (t : list Db.row) :
  Db.apply (Cik.insert_statement r) t = t ++ [r].
Proof. destruct r; reflexivity. Qed.

(** A run of inserts that returns has appended every row, in order. *)
Lemma insert_all_returns (rs : list Db.row) :
  forall c c',
    Cik.insert_all rs c = (Js.Returns tt, c') ->
    Db.cik_table c' = Db.cik_table c ++ rs
    /\ Db.journal c' = Db.journal c ++ map Cik.insert_statement rs.
Proof.
  induction rs as [|r rs IH]; intros c c'; simpl.
  - unfold Db.ret. intros H. injection H as <-. now rewrite !app_nil_r.
  - unfold Db.bind at 1.
    destruct (Db.none (Cik.insert_statement r) c) as [[[]|e] c1] eqn:E;
      [|discriminate].
    apply none_returns in E as [-> _]. intros H.
    apply IH in H as [Ht Hj]. cbn [Db.cik_table Db.journal] in Ht, Hj.
    rewrite Ht, Hj, insert_statement_apply, <- !app_assoc. auto.
Qed.

(** With [k] statements accepted and the next one rejected, a run of
    more than [k] inserts stops there, [k] rows appended. *)
Lemma insert_all_throws (rs : list Db.row) :
  forall k c e rest,
    Db.faults c = repeat None k ++ Some e :: rest ->
    k < List.length rs ->
    Cik.insert_all rs c
    = (Js.Throws e,
       Db.mkConn (Db.cik_table c ++ firstn k rs)
                 (Db.journal c ++ map Cik.insert_statement (firstn k rs))
                 rest).
Proof.
  induction rs as [|r rs IH]; intros k c e rest Hf Hk; simpl in Hk.
  - lia.
  - simpl. unfold Db.bind at 1. destruct k as [|k]; simpl in Hf.
    + rewrite (none_throws _ _ Hf). simpl. now rewrite !app_nil_r.
    + rewrite none_accepted by now rewrite Hf.
      rewrite (IH k _ e rest);
        cbn [Db.cik_table Db.journal Db.faults]; [|now rewrite Hf|lia].
      rewrite insert_statement_apply, <- !app_assoc. reflexivity.
Qed.

(** With no rejection pending, a run of inserts returns. *)
Lemma insert_all_accepted (rs : list Db.row) :
  forall c,
    Db.faults c = [] ->
    Cik.insert_all rs c
    = (Js.Returns tt,
       Db.mkConn (Db.cik_table c ++ rs)
                 (Db.journal c ++ map Cik.insert_statement rs) []).
Proof.
  induction rs as [|r rs IH]; intros c Hf; simpl.
  - unfold Db.ret. rewrite !app_nil_r, <- Hf. now destruct c.
  - unfold Db.bind at 1. rewrite none_accepted by now rewrite Hf.
    rewrite IH by now cbn [Db.faults]; rewrite Hf.
    cbn [Db.cik_table Db.journal].
    now rewrite insert_statement_apply, <- !app_assoc.
Qed.

(** What a successful [insert] leaves behind. *)
Lemma insert_returns (cik : list (list Cik.cell)) (c c' : Db.conn) :
  Cik.insert cik c = (Js.Returns tt, c') ->
  Db.cik_table c' = Cik.coefficients cik
  /\ Db.journal c'
     = Db.journal c
       ++ Db.delete_all_conversions
          :: map Cik.insert_statement (Cik.coefficients cik).
Proof.
  rewrite insert_unfold. unfold Db.bind at 1.
  destruct (Db.none Db.delete_all_conversions c) as [[[]|e] c1] eqn:E;
    [|discriminate].
  apply none_returns in E as [-> _]. intros H.
  apply insert_all_returns in H as [Ht Hj]. simpl in Ht, Hj.
  rewrite Ht, Hj, <- app_assoc. auto.
Qed.

(** [insert] returns when the storage rejects nothing. *)
Lemma insert_accepted (cik : list (list Cik.cell)) (c : Db.conn) :
  Db.faults c = [] ->
  Cik.insert cik c
  = (Js.Returns tt,
     Db.mkConn (Cik.coefficients cik)
               (Db.journal c ++ Db.delete_all_conversions
                  :: map Cik.insert_statement (Cik.coefficients cik)) []).
Proof.
  intros Hf. rewrite insert_unfold. unfold Db.bind at 1.
  rewrite none_accepted by now rewrite Hf.
  rewrite insert_all_accepted by now simpl; rewrite Hf.
  simpl. now rewrite <- app_assoc.
Qed.

End CikFacts.

(** *** The intended contents, cell by cell *)

Section Coefficients.

Lemma In_row_coefficients (row : nat) (cells : list Cik.cell) :
  forall column r,
    In r (Cik.row_coefficients row column cells) <->
    exists j cell,
      nth_error cells j = Some cell /\ Cik.defined cell = true
      /\ r = Cik.coefficient row (column + j) cell.
Proof.
  induction cells as [|c cells IH]; intros column r; simpl.
  - split; [tauto|]. intros ([|j] & cell & H & _); discriminate.
  - rewrite in_app_iff, IH. split.
    + intros [H | (j & cell & Hn & Hd & ->)].
      * destruct (Cik.defined c) eqn:Hd; simpl in H; [|tauto].
        destruct H as [<-|[]]. exists 0, c. now rewrite Nat.add_0_r.
      * exists (S j), cell. now rewrite Nat.add_succ_r.
    + intros ([|j] & cell & Hn & Hd & ->); simpl in Hn.
      * injection Hn as ->. rewrite Hd, Nat.add_0_r. left. now left.
      * right. exists j, cell. now rewrite Nat.add_succ_r.
Qed.

Lemma In_coefficients_from (rows : list (list Cik.cell)) :
  forall row r,
    In r (Cik.coefficients_from row rows) <->
    exists i cells j cell,
      nth_error rows i = Some cells /\ nth_error cells j = Some cell
      /\ Cik.defined cell = true /\ r = Cik.coefficient (row + i) j cell.
Proof.
  induction rows as [|cs rows IH]; intros row r; simpl.
  - split; [tauto|]. intros ([|i] & cells & j & cell & H & _); discriminate.
  - rewrite in_app_iff, IH, In_row_coefficients. split.
    + intros [(j & cell & Hn & Hd & ->) | (i & cells & j & cell & Hr & Hn & Hd & ->)].
      * exists 0, cs, j, cell. now rewrite Nat.add_0_r.
      * exists (S i), cells, j, cell. now rewrite Nat.add_succ_r.
    + intros ([|i] & cells & j & cell & Hr & Hn & Hd & ->); simpl in Hr.
      * injection Hr as ->. left. exists j, cell. now rewrite Nat.add_0_r.
      * right. exists i, cells, j, cell. now rewrite Nat.add_succ_r.
Qed.

Lemma NoDup_row_keys (row : nat) (cells : list Cik.cell) :
  forall column, NoDup (map Cik.key (Cik.row_coefficients row column cells)).
Proof.
  induction cells as [|c cells IH]; intros column; simpl.
  - constructor.
  - rewrite map_app. apply NoDup_app; [| apply IH |].
    + destruct (Cik.defined c); simpl; repeat constructor; simpl; tauto.
    + intros k Hk Hk'. apply in_map_iff in Hk' as (r & <- & Hr).
      apply In_row_coefficients in Hr as (j & cell & _ & _ & ->).
      destruct (Cik.defined c); simpl in Hk; [|tauto].
      destruct Hk as [Hk|[]]. unfold Cik.key in Hk. simpl in Hk.
      injection Hk. lia.
Qed.

Lemma NoDup_keys_from (rows : list (list Cik.cell)) :
  forall row, NoDup (map Cik.key (Cik.coefficients_from row rows)).
Proof.
  induction rows as [|cs rows IH]; intros row; simpl.
  - constructor.
  - rewrite map_app. apply NoDup_app; [apply NoDup_row_keys | apply IH |].
    intros k Hk Hk'.
    apply in_map_iff in Hk as (r & <- & Hr).
    apply in_map_iff in Hk' as (r' & Hkey & Hr').
    apply In_row_coefficients in Hr as (j & cell & _ & _ & ->).
    apply In_coefficients_from in Hr' as (i & cells' & j' & cell' & _ & _ & _ & ->).
    unfold Cik.key in Hkey. simpl in Hkey. injection Hkey. lia.
Qed.

(** The rows of the intended contents are the defined cells. *)
Lemma In_coefficients (cik : list (list Cik.cell)) (r : Db.row) :
  In r (Cik.coefficients cik) <->
  exists cells cell x,
    nth_error cik (Db.meter_unit_id r) = Some cells
    /\ nth_error cells (Db.non_meter_unit_id r) = Some cell
    /\ Js.index cell 0 = Js.number x /\ Js.is_nan x = false
    /\ Db.slope r = Js.number x
    /\ Db.intercept r = Js.index cell 1.
Proof.
  unfold Cik.coefficients. rewrite In_coefficients_from. split.
  - intros (i & cells & j & cell & Hr & Hn & Hd & ->).
    apply defined_number in Hd as (x & Hx & Hnan).
    exists cells, cell, x. simpl. repeat split; assumption || reflexivity.
  - intros (cells & cell & x & Hr & Hn & Hx & Hnan & Hs & Hi).
    exists (Db.meter_unit_id r), cells, (Db.non_meter_unit_id r), cell.
    repeat split; auto.
    + apply defined_number. now exists x.
    + destruct r as [a b sl ic]. simpl in *. unfold Cik.coefficient.
      now rewrite Hx, <- Hs, <- Hi.
Qed.

(** A cell whose slope is NaN or [undefined] has no row. *)
Lemma skipped_cell_has_no_row (cik : list (list Cik.cell))
      (i j : nat) (cells : list Cik.cell) (cell : Cik.cell) (r : Db.row) :
  nth_error cik i = Some cells -> nth_error cells j = Some cell ->
  Js.isNaN (Js.index cell 0) = true ->
  In r (Cik.coefficients cik) -> Cik.key r <> (i, j).
Proof.
  intros Hr Hn Hnan Hin Hkey.
  apply In_coefficients in Hin as (cells' & cell' & x & Hr' & Hn' & Hx & Hx' & _).
  unfold Cik.key in Hkey. injection Hkey as Hi Hj.
  rewrite Hi, Hr in Hr'. injection Hr' as <-.
  rewrite Hj, Hn in Hn'. injection Hn' as <-.
  rewrite Hx in Hnan. unfold Js.isNaN in Hnan. simpl in Hnan. congruence.
Qed.

End Coefficients.

(** *** Main results on the store *)

(** C1.  After a successful [Cik.insert] the table holds exactly one row
    for each cell of the array whose slope [cell[0]] is a number other than
    NaN, with [meter_unit_id] the row index, [non_meter_unit_id] the column
    index, [slope = cell[0]] and [intercept = cell[1]], and nothing else: no
    two rows stand for the same cell, and a cell whose slope is NaN or
    [undefined] has no row. *)
Theorem insert_stores_the_defined_cells
        (cik : list (list Cik.cell)) (c c' : Db.conn) :
  Cik.insert cik c = (Js.Returns tt, c') ->
  NoDup (map Cik.key (Db.cik_table c'))
  /\ (forall r,
        In r (Db.cik_table c') <->
        exists cells cell x,
          nth_error cik (Db.meter_unit_id r) = Some cells
          /\ nth_error cells (Db.non_meter_unit_id r) = Some cell
          /\ Js.index cell 0 = Js.number x /\ Js.is_nan x = false
          /\ Db.slope r = Js.number x
          /\ Db.intercept r = Js.index cell 1)
  /\ (forall i j cells cell r,
        nth_error cik i = Some cells -> nth_error cells j = Some cell ->
        Js.isNaN (Js.index cell 0) = true ->
        In r (Db.cik_table c') -> Cik.key r <> (i, j)).
Proof.
  intros H. apply insert_returns in H as [Ht _]. rewrite Ht.
  split; [apply NoDup_keys_from|].
  split; [intros r; apply In_coefficients|].
  intros i j cells cell r. apply skipped_cell_has_no_row.
Qed.

Lemma insert_stores_the_defined_cells_witness :
  Cik.insert Sample.matrix Sample.used
  = (Js.Returns tt, snd (Cik.insert Sample.matrix Sample.used))
  /\ Db.cik_table (snd (Cik.insert Sample.matrix Sample.used))
     = [Db.mkRow 2 5 (Js.number Sample.one_and_half) (Js.number Sample.one_fifth)]
  /\ NoDup (map Cik.key (Db.cik_table (snd (Cik.insert Sample.matrix Sample.used)))).
Proof.
  split; [reflexivity|]. split; [reflexivity|].
  apply (insert_stores_the_defined_cells Sample.matrix Sample.used
           (c' := snd (Cik.insert Sample.matrix Sample.used))).
  reflexivity.
Defined.

(** C4.  [Cik.insert] replaces, it does not merge: after two successful
    calls the table is the list of the defined cells of the second array,
    whatever the first call stored; the second call's first statement is the
    delete, which leaves no row, and only then come its inserts. *)
Theorem insert_replaces_the_table
        (first second : list (list Cik.cell)) (c0 c1 c2 : Db.conn) :
  Cik.insert first c0 = (Js.Returns tt, c1) ->
  Cik.insert second c1 = (Js.Returns tt, c2) ->
  Db.cik_table c2 = Cik.coefficients second
  /\ Db.journal c2
     = Db.journal c1
       ++ Db.delete_all_conversions
          :: map Cik.insert_statement (Cik.coefficients second)
  /\ Db.apply Db.delete_all_conversions (Db.cik_table c1) = [].
Proof.
  intros _ H. apply insert_returns in H as [Ht Hj]. auto.
Qed.

Lemma insert_replaces_the_table_witness :
  Db.cik_table (snd (Cik.insert Sample.matrix Sample.used))
  = [Db.mkRow 2 5 (Js.number Sample.one_and_half) (Js.number Sample.one_fifth)]
  /\ Db.cik_table
       (snd (Cik.insert Sample.other_matrix
               (snd (Cik.insert Sample.matrix Sample.used))))
     = Cik.coefficients Sample.other_matrix.
Proof.
  split; [reflexivity|].
  apply (insert_replaces_the_table Sample.matrix Sample.other_matrix
           Sample.used
           (c1 := snd (Cik.insert Sample.matrix Sample.used))
           (c2 := snd (Cik.insert Sample.other_matrix
                         (snd (Cik.insert Sample.matrix Sample.used)))));
    reflexivity.
Defined.

Lemma firstn_shorter (A : Type) (k : nat) (l : list A) :
  k < List.length l -> firstn k l <> l.
Proof.
  intros Hk H. apply (f_equal (@List.length A)) in H.
  rewrite length_firstn in H. lia.
Qed.

(** C7.  [Cik.insert] is not atomic.  A rejected statement ends the call
    with the storage's error, and the table stays as the statements before
    it left it: if the delete is rejected the table is untouched; if the
    delete and [k] inserts are accepted and the next insert is rejected,
    the table holds the first [k] rows of the intended contents and nothing
    else, which is neither the intended contents nor, unless they were
    those same [k] rows, the contents before the call. *)
Theorem insert_is_not_atomic
        (cik : list (list Cik.cell)) (c : Db.conn)
        (e : Db.error) (rest : list (option Db.error)) :
  (Db.faults c = Some e :: rest ->
   Cik.insert cik c
   = (Js.Throws e, Db.mkConn (Db.cik_table c) (Db.journal c) rest))
  /\ (forall k,
        Db.faults c = repeat None (S k) ++ Some e :: rest ->
        k < List.length (Cik.coefficients cik) ->
        exists c',
          Cik.insert cik c = (Js.Throws e, c')
          /\ Db.cik_table c' = firstn k (Cik.coefficients cik)
          /\ List.length (Db.cik_table c') = k
          /\ Db.cik_table c' <> Cik.coefficients cik
          /\ (Db.cik_table c <> firstn k (Cik.coefficients cik) ->
              Db.cik_table c' <> Db.cik_table c)
          /\ Db.journal c'
             = Db.journal c
               ++ Db.delete_all_conversions
                  :: map Cik.insert_statement (firstn k (Cik.coefficients cik))).
Proof.
  split.
  - intros Hf. rewrite insert_unfold. unfold Db.bind at 1.
    now rewrite (none_throws _ _ Hf).
  - intros k Hf Hk. rewrite insert_unfold. unfold Db.bind at 1.
    rewrite none_accepted by now rewrite Hf.
    erewrite insert_all_throws;
      [| cbn [Db.faults]; rewrite Hf; reflexivity | exact Hk].
    eexists. split; [reflexivity|]. cbn [Db.cik_table Db.journal Db.apply].
    rewrite <- app_assoc. simpl.
    repeat split.
    + rewrite length_firstn. lia.
    + now apply firstn_shorter.
    + intros Hne Heq. now apply Hne.
Qed.

Lemma insert_is_not_atomic_witness :
  Cik.coefficients Sample.other_matrix
  = [Db.mkRow 0 0 (Js.index Sample.identity 0) (Js.index Sample.identity 1);
     Db.mkRow 1 1 (Js.number Sample.one_and_half) (Js.number Sample.one_fifth)]
  /\ exists c',
       Cik.insert Sample.other_matrix Sample.failing
       = (Js.Throws Sample.refused, c')
       /\ Db.cik_table c' = firstn 1 (Cik.coefficients Sample.other_matrix)
       /\ List.length (Db.cik_table c') = 1
       /\ Db.cik_table c' <> Cik.coefficients Sample.other_matrix
       /\ (Db.cik_table Sample.failing
           <> firstn 1 (Cik.coefficients Sample.other_matrix) ->
           Db.cik_table c' <> Db.cik_table Sample.failing)
       /\ Db.journal c'
          = Db.journal Sample.failing
            ++ Db.delete_all_conversions
               :: map Cik.insert_statement
                    (firstn 1 (Cik.coefficients Sample.other_matrix)).
Proof.
  split; [reflexivity|].
  apply (proj2 (insert_is_not_atomic Sample.other_matrix Sample.failing
                  Sample.refused []) 1).
  - reflexivity.
  - simpl. lia.
Defined.

(** C8.  [Cik.getAll] returns the stored rows, each turned into a [Cik]
    by [mapRow] (same ids, slope and intercept), as many and in the same
    order, and leaves the table as it is; it returns whenever the storage
    accepts the query. *)
Theorem getAll_projects_the_rows (c : Db.conn) :
  (hd None (Db.faults c) = None ->
   exists c', Cik.getAll c = (Js.Returns (map Cik.mapRow (Db.cik_table c)), c'))
  /\ (forall l c',
        Cik.getAll c = (Js.Returns l, c') ->
        l = map Cik.mapRow (Db.cik_table c)
        /\ List.length l = List.length (Db.cik_table c)
        /\ (forall i r,
              nth_error (Db.cik_table c) i = Some r ->
              nth_error l i
              = Some (Cik.mk (Db.meter_unit_id r) (Db.non_meter_unit_id r)
                             (Db.slope r) (Db.intercept r)))
        /\ Db.cik_table c' = Db.cik_table c).
Proof.
  unfold Cik.getAll, Db.any, Db.bind, Db.exec, Db.ret. split.
  - intros Hf. destruct (Db.faults c) as [|[e|] rest]; simpl in *;
      try discriminate; eexists; reflexivity.
  - intros l c'. destruct (Db.faults c) as [|[e|] rest]; simpl;
      intros H; try discriminate; injection H as <- <-; simpl;
      (split; [reflexivity|]); (split; [apply length_map|]);
      (split; [|reflexivity]); intros i r Hr;
      now rewrite nth_error_map, Hr.
Qed.

Lemma getAll_projects_the_rows_witness :
  Cik.getAll (snd (Cik.insert Sample.matrix Sample.used))
  = (Js.Returns [Cik.mk 2 5 (Js.number Sample.one_and_half) (Js.number Sample.one_fifth)],
     snd (Cik.getAll (snd (Cik.insert Sample.matrix Sample.used))))
  /\ [Cik.mk 2 5 (Js.number Sample.one_and_half) (Js.number Sample.one_fifth)]
     = map Cik.mapRow (Db.cik_table (snd (Cik.insert Sample.matrix Sample.used))).
Proof.
  split; [reflexivity|].
  apply (proj2 (getAll_projects_the_rows
                  (snd (Cik.insert Sample.matrix Sample.used)))
               _ (snd (Cik.getAll (snd (Cik.insert Sample.matrix Sample.used))))).
  reflexivity.
Defined.

(** ** moment.js: writing and reading back a date *)

Section MomentFacts.

Local Open Scope string_scope.
Local Open Scope Z_scope.

Arguments Moment.digit_char : simpl never.
Arguments Moment.is_digit : simpl never.
Arguments Moment.digit_value : simpl never.

(** A property checked on [0 .. n-1] holds on that range. *)
Lemma forall_below (P : Z -> bool) (n : Z) :
  forallb P (map Z.of_nat (seq 0 (Z.to_nat n))) = true ->
  forall z, 0 <= z < n -> P z = true.
Proof.
  intros H z Hz. rewrite forallb_forall in H. apply H.
  apply in_map_iff. exists (Z.to_nat z). split; [lia|].
  apply in_seq. lia.
Qed.

Lemma is_digit_digit_char (d : Z) :
  0 <= d <= 9 -> Moment.is_digit (Moment.digit_char d) = true.
Proof.
  intros Hd.
  apply (@forall_below (fun d => Moment.is_digit (Moment.digit_char d)) 10);
    [reflexivity | lia].
Qed.

Lemma digit_value_digit_char (d : Z) :
  0 <= d <= 9 -> Moment.digit_value (Moment.digit_char d) = d.
Proof.
  intros Hd. apply Z.eqb_eq.
  apply (@forall_below
           (fun d => Moment.digit_value (Moment.digit_char d) =? d) 10);
    [reflexivity | lia].
Qed.

(** Two digits for [0 .. 99], four for [0 .. 9999]. *)
Lemma zeroFill_2 (n : Z) :
  0 <= n <= 99 ->
  Moment.zeroFill n 2
  = String (Moment.digit_char (n / 10)) (String (Moment.digit_char (n mod 10)) "").
Proof.
  intros Hn. apply String.eqb_eq.
  apply (@forall_below
           (fun n => String.eqb (Moment.zeroFill n 2)
                       (String (Moment.digit_char (n / 10))
                          (String (Moment.digit_char (n mod 10)) ""))) 100);
    [vm_compute; reflexivity | lia].
Qed.

Lemma zeroFill_4 (n : Z) :
  0 <= n <= 9999 ->
  Moment.zeroFill n 4
  = String (Moment.digit_char (n / 1000))
      (String (Moment.digit_char (n / 100 mod 10))
         (String (Moment.digit_char (n / 10 mod 10))
            (String (Moment.digit_char (n mod 10)) ""))).
Proof.
  intros Hn. apply String.eqb_eq.
  apply (@forall_below
           (fun n => String.eqb (Moment.zeroFill n 4)
                       (String (Moment.digit_char (n / 1000))
                          (String (Moment.digit_char (n / 100 mod 10))
                             (String (Moment.digit_char (n / 10 mod 10))
                                (String (Moment.digit_char (n mod 10)) ""))))) 10000);
    [vm_compute; reflexivity | lia].
Qed.

(** *** Matching digits and literals *)

Lemma match_digits_2 (a b : ascii) (r : string) :
  Moment.is_digit a = true -> Moment.is_digit b = true ->
  Moment.match_digits 2 (String a (String b r))
  = Some (String a (String b ""), r).
Proof.
  intros Ha Hb. cbn [Moment.match_digits Moment.take_digits].
  now rewrite Ha, Hb.
Qed.

Lemma match_digits_4 (a b c d : ascii) (r : string) :
  Moment.is_digit a = true -> Moment.is_digit b = true ->
  Moment.is_digit c = true -> Moment.is_digit d = true ->
  Moment.match_digits 4 (String a (String b (String c (String d r))))
  = Some (String a (String b (String c (String d ""))), r).
Proof.
  intros Ha Hb Hc Hd. cbn [Moment.match_digits Moment.take_digits].
  now rewrite Ha, Hb, Hc, Hd.
Qed.

Lemma match_digits_skip (n : nat) (c : ascii) (r : string) :
  Moment.is_digit c = false ->
  Moment.match_digits n (String c r) = Moment.match_digits n r.
Proof.
  intros Hc. cbn [Moment.match_digits]. now rewrite Hc.
Qed.

Lemma toInt_2 (a b : ascii) :
  Moment.toInt (String a (String b ""))
  = 10 * Moment.digit_value a + Moment.digit_value b.
Proof.
  unfold Moment.toInt. cbn [fold_left list_ascii_of_string]. lia.
Qed.

Lemma toInt_4 (a b c d : ascii) :
  Moment.toInt (String a (String b (String c (String d ""))))
  = 1000 * Moment.digit_value a + 100 * Moment.digit_value b
    + 10 * Moment.digit_value c + Moment.digit_value d.
Proof.
  unfold Moment.toInt. cbn [fold_left list_ascii_of_string]. lia.
Qed.

(** *** What [zeroFill] writes for any number *)

Lemma all_digits_app (s r : string) :
  Moment.all_digits (s ++ r) = Moment.all_digits s && Moment.all_digits r.
Proof.
  induction s as [|c s IH]; simpl; [reflexivity|].
  now rewrite IH, andb_assoc.
Qed.

Lemma all_digits_decimal (fuel : nat) :
  forall n acc,
    0 <= n -> Moment.all_digits acc = true ->
    Moment.all_digits (Moment.decimal_digits fuel n acc) = true.
Proof.
  assert (Hd : forall n acc,
             0 <= n -> Moment.all_digits acc = true ->
             Moment.all_digits (String (Moment.digit_char (n mod 10)) acc) = true).
  { intros n acc Hn Hacc. cbn [Moment.all_digits].
    rewrite is_digit_digit_char, Hacc; [reflexivity|].
    pose proof (Z.mod_pos_bound n 10). lia. }
  induction fuel as [|k IH]; intros n acc Hn Hacc;
    cbn [Moment.decimal_digits].
  - now apply Hd.
  - destruct (n <? 10); [now apply Hd|].
    apply IH; [apply Z.div_pos; lia | now apply Hd].
Qed.

Lemma all_digits_zeros (k : nat) : Moment.all_digits (Moment.zeros k) = true.
Proof. induction k; simpl; auto. Qed.

Lemma length_zeros (k : nat) : String.length (Moment.zeros k) = k.
Proof. induction k; simpl; auto. Qed.

Lemma length_append (s r : string) :
  String.length (s ++ r) = (String.length s + String.length r)%nat.
Proof. induction s; simpl; auto. Qed.

(** [zeroFill n 4] is an optional sign and at least four digits. *)
Lemma zeroFill_4_shape (n : Z) :
  exists (sign : string) (a b c d : ascii) (more : string),
    Moment.zeroFill n 4
    = sign ++ String a (String b (String c (String d more)))
    /\ (sign = "" \/ sign = "-")
    /\ Moment.is_digit a = true /\ Moment.is_digit b = true
    /\ Moment.is_digit c = true /\ Moment.is_digit d = true
    /\ Moment.all_digits more = true.
Proof.
  unfold Moment.zeroFill.
  set (absNumber := Moment.toString (Z.abs n)).
  set (ds := Moment.zeros (4 - String.length absNumber) ++ absNumber).
  assert (Hds : Moment.all_digits ds = true).
  { unfold ds. rewrite all_digits_app, all_digits_zeros. simpl.
    apply all_digits_decimal; [lia | reflexivity]. }
  assert (Hlen : (4 <= String.length ds)%nat).
  { unfold ds. rewrite length_append, length_zeros. lia. }
  destruct ds as [|a [|b [|c [|d more]]]]; simpl in Hlen; try lia.
  simpl in Hds. repeat (apply andb_true_iff in Hds as [? Hds]).
  exists (if 0 <=? n then "" else "-"), a, b, c, d, more.
  repeat split; auto. destruct (0 <=? n); auto.
Qed.

(** *** One token at a time *)

Lemma digit_is_not (a c : ascii) :
  Moment.is_digit a = true -> Moment.is_digit c = false -> Ascii.eqb a c = false.
Proof.
  intros Ha Hc. destruct (Ascii.eqb_spec a c) as [->|]; congruence.
Qed.

Lemma match_literal_here (c : ascii) (r : string) :
  Moment.match_literal c (String c r) = Some r.
Proof. cbn [Moment.match_literal]. now rewrite Ascii.eqb_refl. Qed.

Lemma match_literal_skip (c a : ascii) (r : string) :
  Ascii.eqb a c = false ->
  Moment.match_literal c (String a r) = Moment.match_literal c r.
Proof. intros H. cbn [Moment.match_literal]. now rewrite H. Qed.

Lemma match_literal_skip_digits (c : ascii) (s r : string) :
  Moment.all_digits s = true -> Moment.is_digit c = false ->
  Moment.match_literal c (s ++ r) = Moment.match_literal c r.
Proof.
  intros Hs Hc. induction s as [|a s IH]; [reflexivity|].
  cbn [Moment.all_digits] in Hs. apply andb_true_iff in Hs as [Ha Hs].
  cbn [append]. rewrite match_literal_skip by now apply digit_is_not.
  now apply IH.
Qed.

Lemma parseToken_numeric (tok : Moment.token) (cfg : Moment.config)
      (parsedInput rest : string) :
  (forall c, tok <> Moment.literal c) ->
  Moment.match_digits (Moment.width tok) (Moment.input cfg)
  = Some (parsedInput, rest) ->
  Moment.parseToken cfg tok = Moment.store tok parsedInput rest cfg.
Proof.
  intros Htok H. destruct tok; try (unfold Moment.parseToken; now rewrite H).
  now elim (Htok c).
Qed.

Lemma parseToken_literal_miss (c : ascii) (cfg : Moment.config) :
  Moment.match_literal c (Moment.input cfg) = None ->
  Moment.parseToken cfg (Moment.literal c) = cfg.
Proof. intros H. unfold Moment.parseToken. now rewrite H. Qed.

Lemma parseToken_literal_hit (c : ascii) (cfg : Moment.config) (rest : string) :
  Moment.match_literal c (Moment.input cfg) = Some rest ->
  Moment.parseToken cfg (Moment.literal c)
  = Moment.mkConfig rest (Moment.a_year cfg) (Moment.a_month cfg)
                    (Moment.a_date cfg) (Moment.a_hour cfg)
                    (Moment.a_minute cfg) (Moment.a_second cfg)
                    (Moment.empty cfg).
Proof. intros H. unfold Moment.parseToken. now rewrite H. Qed.

Lemma fold_left_step (A B : Type) (f : A -> B -> A) (x : B) (l : list B) (a : A) :
  fold_left f (x :: l) a = fold_left f l (f a x).
Proof. reflexivity. Qed.

Ltac skip_literal :=
  repeat first
    [ rewrite match_literal_skip
        by first [ reflexivity | apply digit_is_not; [assumption | reflexivity] ]
    | rewrite match_literal_skip_digits by first [ assumption | reflexivity ] ].

Ltac miss_literal :=
  rewrite fold_left_step;
  rewrite parseToken_literal_miss
    by (cbn [Moment.input]; skip_literal; reflexivity).

Ltac hit_literal :=
  rewrite fold_left_step;
  erewrite parseToken_literal_hit
    by (cbn [Moment.input]; skip_literal; apply match_literal_here);
  cbn [Moment.a_year Moment.a_month Moment.a_date Moment.a_hour
         Moment.a_minute Moment.a_second Moment.empty].

Ltac read_digits :=
  rewrite fold_left_step;
  erewrite parseToken_numeric;
  [ cbn [Moment.store Moment.a_year Moment.a_month Moment.a_date Moment.a_hour
           Moment.a_minute Moment.a_second Moment.empty]
  | intros ?; discriminate
  | cbn [Moment.input Moment.width];
    repeat (rewrite match_digits_skip by reflexivity);
    first [ apply match_digits_2 | apply match_digits_4 ]; assumption ].

Lemma parse_tokens (sign : string)
      (a1 a2 b1 b2 y1 y2 y3 y4 h1 h2 m1 m2 s1 s2 : ascii) (more : string) :
  sign = "" \/ sign = "-" ->
  Moment.is_digit a1 = true -> Moment.is_digit a2 = true ->
  Moment.is_digit b1 = true -> Moment.is_digit b2 = true ->
  Moment.is_digit y1 = true -> Moment.is_digit y2 = true ->
  Moment.is_digit y3 = true -> Moment.is_digit y4 = true ->
  Moment.is_digit h1 = true -> Moment.is_digit h2 = true ->
  Moment.is_digit m1 = true -> Moment.is_digit m2 = true ->
  Moment.is_digit s1 = true -> Moment.is_digit s2 = true ->
  Moment.all_digits more = true ->
  fold_left Moment.parseToken Moment.MM_DD_YYYY_HH_mm_ss
    (Moment.mkConfig
       (String a1 (String a2 (String "-" (String b1 (String b2 (String "-"
          (sign ++ String y1 (String y2 (String y3 (String y4
             (more ++ String " " (String h1 (String h2 (String ":"
                (String m1 (String m2 (String ":"
                   (String s1 (String s2 "")))))))))))))))))))
       None None None None None None true)
  = Moment.mkConfig ""
      (Some (Moment.toInt (String y1 (String y2 (String y3 (String y4 ""))))))
      (Some (Moment.toInt (String a1 (String a2 "")) - 1))
      (Some (Moment.toInt (String b1 (String b2 ""))))
      (Some (Moment.toInt (String h1 (String h2 ""))))
      (Some (Moment.toInt (String m1 (String m2 ""))))
      (Some (Moment.toInt (String s1 (String s2 ""))))
      false.
Proof.
  intros Hsign Ha1 Ha2 Hb1 Hb2 Hy1 Hy2 Hy3 Hy4 Hh1 Hh2 Hm1 Hm2 Hs1 Hs2 Hmore.
  unfold Moment.MM_DD_YYYY_HH_mm_ss.
  destruct Hsign as [-> | ->]; cbn [append].
  - read_digits. miss_literal. read_digits. miss_literal. read_digits.
    hit_literal. read_digits. hit_literal. read_digits. hit_literal.
    read_digits. reflexivity.
  - read_digits. miss_literal. read_digits. miss_literal. read_digits.
    hit_literal. read_digits. hit_literal. read_digits. hit_literal.
    read_digits. reflexivity.
Qed.

Lemma digits_of_two (n : Z) :
  0 <= n <= 99 ->
  0 <= n / 10 <= 9 /\ 0 <= n mod 10 <= 9 /\ 10 * (n / 10) + n mod 10 = n.
Proof.
  intros Hn. pose proof (Z.div_mod n 10). pose proof (Z.mod_pos_bound n 10).
  lia.
Qed.

Lemma daysInMonth_le_31 (y m : Z) : 0 <= m <= 11 -> Moment.daysInMonth y m <= 31.
Proof.
  intros Hm.
  assert (Hcases : m = 0 \/ m = 1 \/ m = 2 \/ m = 3 \/ m = 4 \/ m = 5 \/ m = 6
                   \/ m = 7 \/ m = 8 \/ m = 9 \/ m = 10 \/ m = 11) by lia.
  unfold Moment.daysInMonth.
  repeat (destruct Hcases as [-> | Hcases]); try subst m;
    cbn [Z.modulo Z.eqb]; try (vm_compute; discriminate).
  simpl. destruct (Moment.isLeapYear _); lia.
Qed.

Lemma time_of_day_chars (h m s : Z) :
  Reset.clock_time h m s ->
  Reset.time_of_day h m s
  = String (Moment.digit_char (h / 10)) (String (Moment.digit_char (h mod 10))
      (String ":"
         (String (Moment.digit_char (m / 10)) (String (Moment.digit_char (m mod 10))
            (String ":"
               (String (Moment.digit_char (s / 10))
                  (String (Moment.digit_char (s mod 10)) ""))))))).
Proof.
  intros (Hh & Hm & Hs). unfold Reset.time_of_day.
  rewrite !zeroFill_2 by lia. reflexivity.
Qed.

Lemma format_MM_DD_YYYY (f : Moment.fields) (utcOffset : Z) :
  Moment.format (Moment.Valid f utcOffset) Moment.MM_DD_YYYY
  = Moment.zeroFill (Moment.month f + 1) 2 ++ "-"
    ++ Moment.zeroFill (Moment.date f) 2 ++ "-"
    ++ Moment.zeroFill (Moment.year f) 4.
Proof. reflexivity. Qed.


Lemma append_assoc (s r t : string) : (s ++ r) ++ t = s ++ r ++ t.
Proof. induction s as [|c s IH]; simpl; [reflexivity | now rewrite IH]. Qed.

Lemma overflow_on_date (y mo d h m s : Z) :
  0 <= mo <= 11 -> 1 <= d -> Reset.clock_time h m s ->
  Moment.overflow (Moment.mkFields y mo d h m s 0)
  = (Moment.daysInMonth y mo <? d).
Proof.
  intros Hmo Hd (Hh & Hm & Hs). unfold Moment.overflow.
  cbn [Moment.year Moment.month Moment.date Moment.hour Moment.minute
         Moment.second Moment.millisecond].
  replace (mo <? 0) with false by (symmetry; apply Z.ltb_ge; lia).
  replace (11 <? mo) with false by (symmetry; apply Z.ltb_ge; lia).
  replace (d <? 1) with false by (symmetry; apply Z.ltb_ge; lia).
  replace (h <? 0) with false by (symmetry; apply Z.ltb_ge; lia).
  replace (24 <? h) with false by (symmetry; apply Z.ltb_ge; lia).
  replace (h =? 24) with false by (symmetry; apply Z.eqb_neq; lia).
  replace (m <? 0) with false by (symmetry; apply Z.ltb_ge; lia).
  replace (59 <? m) with false by (symmetry; apply Z.ltb_ge; lia).
  replace (s <? 0) with false by (symmetry; apply Z.ltb_ge; lia).
  replace (59 <? s) with false by (symmetry; apply Z.ltb_ge; lia).
  cbn. now rewrite !orb_false_r.
Qed.

(** Reading back, with the stamp's date in front, a time of day written
    as HH:mm:ss: the same month and day, the year as [YYYY] reads it, and
    that time; invalid if the month of that year has no such day. *)
Lemma parse_on_date (localOffset : Z) (today f : Moment.fields)
      (utcOffset h m s : Z) :
  Moment.calendar_date f -> Reset.clock_time h m s ->
  Moment.parse localOffset today
    (Moment.format (Moment.Valid f utcOffset) Moment.MM_DD_YYYY ++ " "
     ++ Reset.time_of_day h m s)
    Moment.MM_DD_YYYY_HH_mm_ss
  = if Moment.daysInMonth (Moment.year_read_back (Moment.year f)) (Moment.month f)
       <? Moment.date f
    then Moment.Invalid
    else Moment.Valid
           (Moment.mkFields (Moment.year_read_back (Moment.year f))
                            (Moment.month f) (Moment.date f) h m s 0)
           localOffset.
Proof.
  intros (Hmo & Hd) Hclock.
  pose proof (daysInMonth_le_31 (Moment.year f) Hmo) as H31.
  destruct (zeroFill_4_shape (Moment.year f))
    as (sign & y1 & y2 & y3 & y4 & more & Hz & Hsign & Hy1 & Hy2 & Hy3 & Hy4 & Hmore).
  assert (Hback : Moment.year_read_back (Moment.year f)
                  = Moment.toInt (String y1 (String y2 (String y3 (String y4 ""))))).
  { unfold Moment.year_read_back. rewrite Hz.
    destruct Hsign as [-> | ->]; cbn [append];
      rewrite ?match_digits_skip by reflexivity;
      now rewrite match_digits_4. }
  destruct (digits_of_two (n := Moment.month f + 1)) as (Ha1 & Ha2 & Ha); [lia|].
  destruct (digits_of_two (n := Moment.date f)) as (Hb1 & Hb2 & Hb); [lia|].
  pose proof Hclock as (Hh & Hm & Hs).
  destruct (digits_of_two (n := h)) as (Hh1 & Hh2 & Hhv); [lia|].
  destruct (digits_of_two (n := m)) as (Hm1 & Hm2 & Hmv); [lia|].
  destruct (digits_of_two (n := s)) as (Hs1 & Hs2 & Hsv); [lia|].
  rewrite format_MM_DD_YYYY, time_of_day_chars by assumption.
  rewrite !zeroFill_2 by lia. rewrite Hz.
  cbn [append]. rewrite !append_assoc. cbn [append].
  unfold Moment.parse.
  rewrite parse_tokens; auto using is_digit_digit_char.
  unfold Moment.configFromArray.
  cbn [Moment.a_year Moment.a_month Moment.a_date Moment.a_hour
         Moment.a_minute Moment.a_second Moment.empty Moment.orElse orb].
  rewrite <- Hback, !toInt_2, !digit_value_digit_char by assumption.
  replace (10 * ((Moment.month f + 1) / 10) + (Moment.month f + 1) mod 10 - 1)
    with (Moment.month f) by lia.
  rewrite Hb, Hhv, Hmv, Hsv.
  rewrite overflow_on_date by (assumption || lia).
  destruct (_ <? Moment.date f); [reflexivity|].
  cbn [Moment.hour].
  replace (h =? 24) with false by (symmetry; apply Z.eqb_neq; lia).
  reflexivity.
Qed.

End MomentFacts.

(** ** The cumulative-reset window *)

Section ResetFacts.

Local Open Scope string_scope.
Local Open Scope Z_scope.

Variable localOffset : Z.
Variable currentDate : Moment.fields.

(** The two ends of a window on one date are as far apart as their
    times of day. *)
Lemma time_on_date (f : Moment.fields) (h m s : Z) :
  Moment.time (Reset.on_date_of f h m s)
  = Moment.daysFromCivil (Moment.year f) (Moment.month f + 1) (Moment.date f)
    * 86400000
    + Reset.seconds_of_day h m s * 1000.
Proof.
  unfold Moment.time, Reset.on_date_of, Reset.seconds_of_day.
  cbn [Moment.year Moment.month Moment.date Moment.hour Moment.minute
         Moment.second Moment.millisecond].
  lia.
Qed.


Lemma handleCumulativeReset_enabled (resetStart resetEnd : string) (ts : Moment.t) :
  Reset.handleCumulativeReset localOffset currentDate true resetStart resetEnd ts
  = Moment.isSameOrAfter ts
      (Moment.parse localOffset currentDate
         (Moment.format ts Moment.MM_DD_YYYY ++ " " ++ resetStart)
         Moment.MM_DD_YYYY_HH_mm_ss)
    && Moment.isSameOrBefore ts
         (Moment.parse localOffset currentDate
            (Moment.format ts Moment.MM_DD_YYYY ++ " " ++ resetEnd)
            Moment.MM_DD_YYYY_HH_mm_ss).
Proof.
  unfold Reset.handleCumulativeReset, Moment.clone. cbn [negb].
  now destruct (_ && _).
Qed.

Lemma isSameOrAfter_valid (a b : Moment.fields) (oa ob : Z) :
  Moment.isSameOrAfter (Moment.Valid a oa) (Moment.Valid b ob) = true
  <-> Moment.valueOf b ob <= Moment.valueOf a oa.
Proof.
  unfold Moment.isSameOrAfter, Moment.isSame, Moment.isAfter.
  rewrite orb_true_iff, Z.eqb_eq, Z.ltb_lt. lia.
Qed.

Lemma isSameOrBefore_valid (a b : Moment.fields) (oa ob : Z) :
  Moment.isSameOrBefore (Moment.Valid a oa) (Moment.Valid b ob) = true
  <-> Moment.valueOf a oa <= Moment.valueOf b ob.
Proof.
  unfold Moment.isSameOrBefore, Moment.isSame, Moment.isBefore.
  rewrite orb_true_iff, Z.eqb_eq, Z.ltb_lt. lia.
Qed.

Lemma isSameOrAfter_invalid_l (b : Moment.t) :
  Moment.isSameOrAfter Moment.Invalid b = false.
Proof. reflexivity. Qed.

Lemma isSameOrAfter_invalid_r (a : Moment.t) :
  Moment.isSameOrAfter a Moment.Invalid = false.
Proof. now destruct a. Qed.

Lemma isSameOrBefore_invalid_r (a : Moment.t) :
  Moment.isSameOrBefore a Moment.Invalid = false.
Proof. now destruct a. Qed.

Lemma not_valid_is_invalid (m : Moment.t) :
  Moment.isValid m = false -> m = Moment.Invalid.
Proof. now destruct m. Qed.

End ResetFacts.

(** *** Main results on the window *)




(** C3.  With [cumulativeReset] false, [handleCumulativeReset] returns
    false, whatever the window and the stamp. *)
Theorem reset_disabled_is_false
        (localOffset : Z) (currentDate : Moment.fields)
        (resetStart resetEnd : string)
        (startTimestamp : Moment.t) :
  Reset.handleCumulativeReset localOffset currentDate false resetStart resetEnd startTimestamp
  = false.
Proof. reflexivity. Qed.



(** C6, as the code has it.  [handleCumulativeReset] raises nothing: every
    call returns a boolean.  With a reading stamp that is invalid, or a
    window string that moment reads as an invalid moment, it returns
    false. *)
Theorem unparsable_input_returns_false
        (localOffset : Z) (currentDate : Moment.fields) (cumulativeReset : bool)
        (resetStart resetEnd : string) (startTimestamp : Moment.t) :
  Reset.call localOffset currentDate cumulativeReset resetStart resetEnd startTimestamp
  = Js.Returns
      (Reset.handleCumulativeReset localOffset currentDate cumulativeReset
         resetStart resetEnd startTimestamp)
  /\ (Moment.isValid startTimestamp = false
      \/ Moment.isValid
           (Moment.parse localOffset currentDate
              (Moment.format startTimestamp Moment.MM_DD_YYYY ++ " " ++ resetStart)
              Moment.MM_DD_YYYY_HH_mm_ss) = false
      \/ Moment.isValid
           (Moment.parse localOffset currentDate
              (Moment.format startTimestamp Moment.MM_DD_YYYY ++ " " ++ resetEnd)
              Moment.MM_DD_YYYY_HH_mm_ss) = false ->
      Reset.call localOffset currentDate cumulativeReset resetStart resetEnd startTimestamp
      = Js.Returns false).
Proof.
  split; [reflexivity|]. unfold Reset.call. intros H. f_equal.
  destruct cumulativeReset; [|reflexivity].
  rewrite handleCumulativeReset_enabled.
  destruct H as [H | [H | H]]; apply not_valid_is_invalid in H; rewrite H.
  - reflexivity.
  - now rewrite isSameOrAfter_invalid_r.
  - rewrite isSameOrBefore_invalid_r. apply andb_false_r.
Qed.

Lemma unparsable_input_returns_false_witness :
  Reset.call Sample.utc Sample.today true "25:61:00" "23:59:59"
    (Moment.Valid Sample.late_evening Sample.utc)
  = Js.Returns false.
Proof.
  apply (proj2 (unparsable_input_returns_false Sample.utc Sample.today true
                  "25:61:00" "23:59:59" (Moment.Valid Sample.late_evening Sample.utc))).
  right. left. reflexivity.
Defined.

(** C6, as stated, fails: with the window start "25:61:00", which is no
    time of day, and with an invalid reading stamp, the call returns false
    and raises no error. *)
Lemma malformed_input_raises_no_error :
  Reset.call Sample.utc Sample.today true "25:61:00" "23:59:59"
    (Moment.Valid Sample.late_evening Sample.utc) = Js.Returns false
  /\ Reset.call Sample.utc Sample.today true "23:00:00" "23:59:59" Moment.Invalid
     = Js.Returns false
  /\ ~ (exists e,
          Reset.call Sample.utc Sample.today true "25:61:00" "23:59:59"
            (Moment.Valid Sample.late_evening Sample.utc) = Js.Throws e).
Proof.
  split; [reflexivity|]. split; [reflexivity|].
  intros (e & He). discriminate He.
Qed.

(** ** The preferences form *)

(** C9.  The Submit button of the preferences form is disabled exactly
    when there is no unsaved change or one of the nine validity predicates
    holds of the local preferences; a click on it sends a request only when
    there are changes and no predicate holds, and the request is the local
    preferences. *)
Theorem submit_disabled_unless_changed_and_valid
        (V : Type) (Number : V -> spec_float) (moment : V -> Moment.t)
        (duration : V -> Preferences.Duration)
        (MIN_VAL MAX_VAL MAX_ERRORS : spec_float)
        (MIN_DATE_MOMENT MAX_DATE_MOMENT : Moment.t)
        (st : Preferences.state V) :
  (Preferences.submitDisabled Number moment duration MIN_VAL MAX_VAL MAX_ERRORS
     MIN_DATE_MOMENT MAX_DATE_MOMENT st = true
   <-> Preferences.hasChanges st = false
       \/ Preferences.invalidReadingFreq duration (Preferences.localAdminPref st) = true
       \/ Preferences.invalidMinValue Number MIN_VAL (Preferences.localAdminPref st) = true
       \/ Preferences.invalidMaxValue Number MAX_VAL (Preferences.localAdminPref st) = true
       \/ Preferences.invalidMinDate moment MIN_DATE_MOMENT (Preferences.localAdminPref st) = true
       \/ Preferences.invalidMaxDate moment MAX_DATE_MOMENT (Preferences.localAdminPref st) = true
       \/ Preferences.invalidReadingGap Number (Preferences.localAdminPref st) = true
       \/ Preferences.invalidMeterErrors Number MAX_ERRORS (Preferences.localAdminPref st) = true
       \/ Preferences.invalidFileSizeLimit Number (Preferences.localAdminPref st) = true
       \/ Preferences.invalidWarningFileSize Number (Preferences.localAdminPref st) = true)
  /\ (forall request,
        Preferences.clickSubmit Number moment duration MIN_VAL MAX_VAL MAX_ERRORS
          MIN_DATE_MOMENT MAX_DATE_MOMENT st = Some request ->
        request = Preferences.localAdminPref st
        /\ Preferences.hasChanges st = true
        /\ Preferences.invalidReadingFreq duration request = false
        /\ Preferences.invalidMinValue Number MIN_VAL request = false
        /\ Preferences.invalidMaxValue Number MAX_VAL request = false
        /\ Preferences.invalidMinDate moment MIN_DATE_MOMENT request = false
        /\ Preferences.invalidMaxDate moment MAX_DATE_MOMENT request = false
        /\ Preferences.invalidReadingGap Number request = false
        /\ Preferences.invalidMeterErrors Number MAX_ERRORS request = false
        /\ Preferences.invalidFileSizeLimit Number request = false
        /\ Preferences.invalidWarningFileSize Number request = false).
Proof.
  split.
  - unfold Preferences.submitDisabled.
    rewrite !orb_true_iff, negb_true_iff. tauto.
  - intros request. unfold Preferences.clickSubmit.
    destruct (Preferences.submitDisabled _ _ _ _ _ _ _ _ st) eqn:Hd;
      [discriminate|].
    intros H. injection H as <-.
    unfold Preferences.submitDisabled in Hd.
    rewrite !orb_false_iff, negb_false_iff in Hd. tauto.
Qed.

Lemma submit_disabled_unless_changed_and_valid_witness :
  Preferences.clickSubmit Sample.number_of Sample.moment_of Sample.duration_of
    Sample.MIN_VAL Sample.MAX_VAL Sample.MAX_ERRORS
    Sample.MIN_DATE_MOMENT Sample.MAX_DATE_MOMENT
    (Preferences.mkState Sample.preferences true)
  = Some Sample.preferences
  /\ Preferences.submitDisabled Sample.number_of Sample.moment_of Sample.duration_of
       Sample.MIN_VAL Sample.MAX_VAL Sample.MAX_ERRORS
       Sample.MIN_DATE_MOMENT Sample.MAX_DATE_MOMENT
       (Preferences.mkState Sample.preferences false)
     = true
  /\ Preferences.submitDisabled Sample.number_of Sample.moment_of Sample.duration_of
       Sample.MIN_VAL Sample.MAX_VAL Sample.MAX_ERRORS
       Sample.MIN_DATE_MOMENT Sample.MAX_DATE_MOMENT
       (Preferences.mkState Sample.bad_gap true)
     = true.
Proof.
  split; [reflexivity|]. split.
  - apply (proj1 (submit_disabled_unless_changed_and_valid
                    Sample.number_of Sample.moment_of Sample.duration_of
                    Sample.MIN_VAL Sample.MAX_VAL Sample.MAX_ERRORS
                    Sample.MIN_DATE_MOMENT Sample.MAX_DATE_MOMENT
                    (Preferences.mkState Sample.preferences false))).
    left. reflexivity.
  - apply (proj1 (submit_disabled_unless_changed_and_valid
                    Sample.number_of Sample.moment_of Sample.duration_of
                    Sample.MIN_VAL Sample.MAX_VAL Sample.MAX_ERRORS
                    Sample.MIN_DATE_MOMENT Sample.MAX_DATE_MOMENT
                    (Preferences.mkState Sample.bad_gap true))).
    do 6 right. left. reflexivity.
Defined.

(* ================================================================== *)
(** * Part III.  Further properties                                    *)
(* ================================================================== *)

(** ** The store: order, counts, failures and reading back *)

Section StoreFacts.

Lemma StronglySorted_app (A : Type) (R : A -> A -> Prop) (l1 l2 : list A) :
  StronglySorted R l1 -> StronglySorted R l2 ->
  (forall a b, In a l1 -> In b l2 -> R a b) ->
  StronglySorted R (l1 ++ l2).
Proof.
  intros H1 H2 H. induction H1 as [|a l1 Hs IH Hall]; simpl; [exact H2|].
  constructor.
  - apply IH. intros x y Hx Hy. apply H; [now right | exact Hy].
  - apply Forall_app. split; [exact Hall|].
    apply Forall_forall. intros y Hy. apply H; [now left | exact Hy].
Qed.

Lemma row_keys_sorted (row : nat) (cells : list Cik.cell) :
  forall column,
    StronglySorted Store.key_lt (map Cik.key (Cik.row_coefficients row column cells)).
Proof.
  induction cells as [|c cells IH]; intros column; simpl.
  - constructor.
  - rewrite map_app. apply StronglySorted_app; [| apply IH |].
    + destruct (Cik.defined c); simpl; repeat constructor.
    + intros a b Ha Hb.
      apply in_map_iff in Hb as (r & <- & Hr).
      apply In_row_coefficients in Hr as (j & cell & _ & _ & ->).
      destruct (Cik.defined c); simpl in Ha; [|tauto].
      destruct Ha as [<-|[]]. right. simpl. lia.
Qed.

Lemma keys_sorted_from (rows : list (list Cik.cell)) :
  forall row,
    StronglySorted Store.key_lt (map Cik.key (Cik.coefficients_from row rows)).
Proof.
  induction rows as [|cs rows IH]; intros row; simpl.
  - constructor.
  - rewrite map_app. apply StronglySorted_app; [apply row_keys_sorted | apply IH |].
    intros a b Ha Hb.
    apply in_map_iff in Ha as (r & <- & Hr).
    apply in_map_iff in Hb as (r' & <- & Hr').
    apply In_row_coefficients in Hr as (j & cell & _ & _ & ->).
    apply In_coefficients_from in Hr' as (i & cells' & j' & cell' & _ & _ & _ & ->).
    left. simpl. lia.
Qed.

(** The values written are those of the defined cells, in the order of
    the flattened array. *)
Lemma row_coefficients_payload (row : nat) (cells : list Cik.cell) :
  forall column,
    map Store.stored (Cik.row_coefficients row column cells)
    = map Store.payload (filter Cik.defined cells).
Proof.
  induction cells as [|c cells IH]; intros column; simpl; [reflexivity|].
  rewrite map_app, IH. now destruct (Cik.defined c).
Qed.

Lemma coefficients_payload (rows : list (list Cik.cell)) :
  forall row,
    map Store.stored (Cik.coefficients_from row rows)
    = map Store.payload (filter Cik.defined (List.concat rows)).
Proof.
  induction rows as [|cs rows IH]; intros row; simpl; [reflexivity|].
  now rewrite map_app, filter_app, map_app, IH, row_coefficients_payload.
Qed.

(** A run of inserts that throws has appended a strict prefix. *)
Lemma insert_all_thrown (rs : list Db.row) :
  forall c e c',
    Cik.insert_all rs c = (Js.Throws e, c') ->
    exists k,
      k < List.length rs
      /\ Db.cik_table c' = Db.cik_table c ++ firstn k rs
      /\ Db.journal c' = Db.journal c ++ map Cik.insert_statement (firstn k rs)
      /\ nth_error (Db.faults c) k = Some (Some e).
Proof.
  induction rs as [|r rs IH]; intros c e c'; simpl.
  - discriminate.
  - unfold Db.bind at 1.
    destruct (Db.none (Cik.insert_statement r) c) as [[[]|e0] c1] eqn:E.
    + apply none_returns in E as [-> Hhd]. intros H.
      apply IH in H as (k & Hk & Ht & Hj & Hf).
      cbn [Db.cik_table Db.journal Db.faults] in Ht, Hj, Hf.
      exists (S k). repeat split.
      * lia.
      * rewrite Ht, insert_statement_apply, <- app_assoc. reflexivity.
      * rewrite Hj, <- app_assoc. reflexivity.
      * destruct (Db.faults c); [now destruct k | exact Hf].
    + intros H. injection H as <- <-.
      unfold Db.none, Db.bind, Db.exec in E.
      destruct (Db.faults c) as [|[e1|] rest] eqn:Hf; simpl in E;
        try discriminate.
      injection E as <- <-. exists 0. simpl.
      rewrite !app_nil_r. repeat split; lia.
Qed.

End StoreFacts.

(** X1.  Reading back what was written: a successful [Cik.getAll] after a
    successful [Cik.insert] returns one [Cik] for each cell of the array
    whose slope is a number other than NaN, carrying the row and column
    index, the slope and the intercept of the cell, and nothing else. *)
Theorem getAll_after_insert
        (cik : list (list Cik.cell)) (c c1 c2 : Db.conn) (l : list Cik.t) :
  Cik.insert cik c = (Js.Returns tt, c1) ->
  Cik.getAll c1 = (Js.Returns l, c2) ->
  l = map Cik.mapRow (Cik.coefficients cik)
  /\ (forall k,
        In k l <->
        exists cells cell x,
          nth_error cik (Cik.meterUnitId k) = Some cells
          /\ nth_error cells (Cik.nonMeterUnitId k) = Some cell
          /\ Js.index cell 0 = Js.number x /\ Js.is_nan x = false
          /\ Cik.slope k = Js.number x
          /\ Cik.intercept k = Js.index cell 1).
Proof.
  intros Hi Hg. apply insert_returns in Hi as [Ht _].
  assert (Hl : l = map Cik.mapRow (Cik.coefficients cik)).
  { unfold Cik.getAll, Db.any, Db.bind, Db.exec, Db.ret in Hg.
    destruct (Db.faults c1) as [|[e|] rest]; simpl in Hg; try discriminate;
      injection Hg as <- _; now rewrite Ht. }
  split; [exact Hl|]. subst l. intros k. rewrite in_map_iff. split.
  - intros (r & <- & Hr). apply In_coefficients in Hr. exact Hr.
  - intros H.
    exists (Db.mkRow (Cik.meterUnitId k) (Cik.nonMeterUnitId k)
                     (Cik.slope k) (Cik.intercept k)).
    split; [now destruct k|]. apply In_coefficients. exact H.
Qed.

Lemma getAll_after_insert_witness :
  [Cik.mk 0 0 (Js.index Sample.identity 0) (Js.index Sample.identity 1);
   Cik.mk 1 1 (Js.number Sample.one_and_half) (Js.number Sample.one_fifth)]
  = map Cik.mapRow (Cik.coefficients Sample.other_matrix).
Proof.
  apply (getAll_after_insert Sample.other_matrix Sample.used
           (c1 := snd (Cik.insert Sample.other_matrix Sample.used))
           (c2 := snd (Cik.getAll (snd (Cik.insert Sample.other_matrix Sample.used)))));
    reflexivity.
Defined.

(** X2.  After a successful [Cik.insert] the rows of the table come in
    row-major order of the cells they stand for: strictly increasing in
    (row, column). *)
Theorem insert_stores_in_row_major_order
        (cik : list (list Cik.cell)) (c c' : Db.conn) :
  Cik.insert cik c = (Js.Returns tt, c') ->
  StronglySorted Store.key_lt (map Cik.key (Db.cik_table c')).
Proof.
  intros H. apply insert_returns in H as [-> _]. apply keys_sorted_from.
Qed.

Lemma insert_stores_in_row_major_order_witness :
  StronglySorted Store.key_lt
    (map Cik.key
         (Db.cik_table (snd (Cik.insert Sample.other_matrix Sample.used)))).
Proof.
  apply (insert_stores_in_row_major_order Sample.other_matrix Sample.used).
  reflexivity.
Defined.

(** X3.  A successful [Cik.insert] leaves the table empty exactly when no
    cell of the array has a slope that is a number other than NaN; so the
    empty array, or an array of NaN only, clears the table. *)
Theorem insert_without_conversions_clears
        (cik : list (list Cik.cell)) (c c' : Db.conn) :
  Cik.insert cik c = (Js.Returns tt, c') ->
  (Db.cik_table c' = [] <->
   forall cells cell,
     In cells cik -> In cell cells -> Js.isNaN (Js.index cell 0) = true).
Proof.
  intros H. apply insert_returns in H as [-> _]. split.
  - intros Hnil cells cell Hcells Hcell.
    destruct (Js.isNaN (Js.index cell 0)) eqn:Hnan; [reflexivity|].
    apply In_nth_error in Hcells as (i & Hi).
    apply In_nth_error in Hcell as (j & Hj).
    assert (Hin : In (Cik.coefficient i j cell) (Cik.coefficients cik)).
    { apply In_coefficients_from. exists i, cells, j, cell.
      repeat split; auto. rewrite <- guard_is_defined, Hnan. reflexivity. }
    rewrite Hnil in Hin. destruct Hin.
  - intros Hall. destruct (Cik.coefficients cik) as [|r rs] eqn:E; [reflexivity|].
    assert (Hin : In r (Cik.coefficients cik)) by (rewrite E; now left).
    apply In_coefficients_from in Hin as (i & cells & j & cell & Hi & Hj & Hd & _).
    apply nth_error_In in Hi. apply nth_error_In in Hj.
    specialize (Hall cells cell Hi Hj).
    rewrite <- guard_is_defined, Hall in Hd. discriminate.
Qed.

Lemma insert_without_conversions_clears_witness :
  Db.cik_table (snd (Cik.insert [[Sample.no_conversion; []]; []] Sample.used)) = [].
Proof.
  apply (insert_without_conversions_clears
           [[Sample.no_conversion; []]; []] Sample.used
           (c' := snd (Cik.insert [[Sample.no_conversion; []]; []] Sample.used)));
    [reflexivity|].
  intros cells cell [<-|[<-|[]]] Hcell; simpl in Hcell.
  - destruct Hcell as [<-|[<-|[]]]; reflexivity.
  - destruct Hcell.
Defined.

(** X4.  A successful [Cik.insert] writes the slopes and intercepts of
    the defined cells in the order of the flattened array; the table has as
    many rows as the array has defined cells, and the call has sent one
    statement more than that. *)
Theorem insert_writes_one_row_per_defined_cell
        (cik : list (list Cik.cell)) (c c' : Db.conn) :
  Cik.insert cik c = (Js.Returns tt, c') ->
  map Store.stored (Db.cik_table c')
  = map Store.payload (filter Cik.defined (List.concat cik))
  /\ List.length (Db.cik_table c')
     = List.length (filter Cik.defined (List.concat cik))
  /\ List.length (Db.journal c')
     = List.length (Db.journal c)
       + S (List.length (filter Cik.defined (List.concat cik))).
Proof.
  intros H. apply insert_returns in H as [Ht Hj].
  assert (Hp : map Store.stored (Db.cik_table c')
               = map Store.payload (filter Cik.defined (List.concat cik))).
  { rewrite Ht. apply coefficients_payload. }
  assert (Hlen : List.length (Db.cik_table c')
                 = List.length (filter Cik.defined (List.concat cik))).
  { apply (f_equal (@List.length _)) in Hp. now rewrite !length_map in Hp. }
  repeat split; auto.
  rewrite Hj, length_app. simpl. rewrite length_map, <- Ht, Hlen. reflexivity.
Qed.

Lemma insert_writes_one_row_per_defined_cell_witness :
  List.length (Db.cik_table (snd (Cik.insert Sample.other_matrix Sample.used)))
  = 2.
Proof.
  apply (insert_writes_one_row_per_defined_cell Sample.other_matrix Sample.used
           (c' := snd (Cik.insert Sample.other_matrix Sample.used))).
  reflexivity.
Defined.

(** X5.  Whatever the storage rejects, [Cik.insert] leaves one of three
    tables: the intended contents when it returns; when it throws, the
    table it found (the delete was rejected) or a strict prefix of the
    intended contents (an insert was rejected).  The error thrown is the
    one the storage gave. *)
Theorem insert_leaves_a_prefix
        (cik : list (list Cik.cell)) (c : Db.conn) :
  (exists c',
     Cik.insert cik c = (Js.Returns tt, c')
     /\ Db.cik_table c' = Cik.coefficients cik)
  \/ (exists e c',
        Cik.insert cik c = (Js.Throws e, c')
        /\ ((hd None (Db.faults c) = Some e
             /\ Db.cik_table c' = Db.cik_table c)
            \/ (exists k,
                  k < List.length (Cik.coefficients cik)
                  /\ nth_error (Db.faults c) (S k) = Some (Some e)
                  /\ Db.cik_table c' = firstn k (Cik.coefficients cik)))).
Proof.
  destruct (Cik.insert cik c) as [[[]|e] c'] eqn:E.
  - left. exists c'. split; [reflexivity|]. now apply insert_returns in E.
  - right. exists e, c'. split; [reflexivity|].
    rewrite insert_unfold in E. unfold Db.bind at 1 in E.
    destruct (Db.none Db.delete_all_conversions c) as [[[]|e0] c1] eqn:En.
    + right. apply none_returns in En as [-> Hhd].
      apply insert_all_thrown in E as (k & Hk & Ht & _ & Hf).
      cbn [Db.cik_table Db.faults Db.apply] in Ht, Hf.
      exists k. repeat split; auto.
      destruct (Db.faults c); [now destruct k | exact Hf].
    + left. injection E as <- <-.
      unfold Db.none, Db.bind, Db.exec in En.
      destruct (Db.faults c) as [|[e1|] rest]; simpl in En; try discriminate.
      injection En as <- <-. auto.
Qed.

(** X6.  [Cik.getAll] only reads: returning or throwing, it leaves the
    table as it found it; when the storage rejects the query it throws the
    storage's error and returns no list. *)
Theorem getAll_only_reads (c : Db.conn) :
  Db.cik_table (snd (Cik.getAll c)) = Db.cik_table c
  /\ (forall e rest,
        Db.faults c = Some e :: rest ->
        Cik.getAll c
        = (Js.Throws e, Db.mkConn (Db.cik_table c) (Db.journal c) rest))
  /\ (forall e c', Cik.getAll c = (Js.Throws e, c') ->
                   hd None (Db.faults c) = Some e).
Proof.
  unfold Cik.getAll, Db.any, Db.bind, Db.exec, Db.ret.
  destruct (Db.faults c) as [|[e0|] rest]; simpl;
    (split; [reflexivity|]); split; intros; try discriminate; congruence.
Qed.

Lemma getAll_only_reads_witness :
  Cik.getAll (Db.mkConn (Db.cik_table Sample.used) [] [Some Sample.refused])
  = (Js.Throws Sample.refused, Db.mkConn (Db.cik_table Sample.used) [] []).
Proof.
  apply (proj1 (proj2 (getAll_only_reads
                         (Db.mkConn (Db.cik_table Sample.used) []
                                    [Some Sample.refused])))).
  reflexivity.
Defined.

(** ** The calendar *)

Section CalendarFacts.

Local Open Scope Z_scope.





Lemma month_cases (m : Z) :
  0 <= m <= 11 ->
  m = 0 \/ m = 1 \/ m = 2 \/ m = 3 \/ m = 4 \/ m = 5 \/ m = 6
  \/ m = 7 \/ m = 8 \/ m = 9 \/ m = 10 \/ m = 11.
Proof. lia. Qed.





(** The same month and day of a later year is at least a day later. *)
Lemma daysFromCivil_year (y y' m d : Z) :
  y < y' -> Moment.daysFromCivil y m d < Moment.daysFromCivil y' m d.
Proof.
  intros Hy. unfold Moment.daysFromCivil.
  destruct (m <=? 2); Z.to_euclidean_division_equations; lia.
Qed.

(** It is at least 365 days later. *)
Lemma daysFromCivil_year_apart (y y' m d : Z) :
  y < y' -> Moment.daysFromCivil y m d + 365 <= Moment.daysFromCivil y' m d.
Proof.
  intros Hy. unfold Moment.daysFromCivil.
  destruct (m <=? 2); Z.to_euclidean_division_equations; lia.
Qed.

End CalendarFacts.

(** ** moment.js: reading strings that are not HH:mm:ss *)

Section LenientFacts.

Local Open Scope string_scope.
Local Open Scope Z_scope.

Variables localOffset utcOffset : Z.

Arguments Moment.digit_char : simpl never.
Arguments Moment.is_digit : simpl never.
Arguments Moment.digit_value : simpl never.

Lemma digit_value_range (a : ascii) :
  Moment.is_digit a = true -> 0 <= Moment.digit_value a <= 9.
Proof.
  unfold Moment.is_digit, Moment.digit_value. intros H.
  apply andb_true_iff in H as [H1 H2].
  apply Nat.leb_le in H1. apply Nat.leb_le in H2. lia.
Qed.

(** Whatever the year written, the year read back has four digits. *)
Lemma year_read_back_range (y : Z) : 0 <= Moment.year_read_back y <= 9999.
Proof.
  destruct (zeroFill_4_shape y)
    as (sign & a & b & c & d & more & Hz & Hsign & Ha & Hb & Hc & Hd & _).
  unfold Moment.year_read_back. rewrite Hz.
  assert (Hm : Moment.match_digits 4
                 (sign ++ String a (String b (String c (String d more))))
               = Some (String a (String b (String c (String d ""))), more)).
  { destruct Hsign as [-> | ->]; cbn [append];
      rewrite ?match_digits_skip by reflexivity; now apply match_digits_4. }
  rewrite Hm, toInt_4.
  pose proof (@digit_value_range a Ha). pose proof (@digit_value_range b Hb).
  pose proof (@digit_value_range c Hc). pose proof (@digit_value_range d Hd).
  lia.
Qed.

Ltac lit_skip :=
  repeat first
    [ rewrite match_literal_skip
        by first [ reflexivity | apply digit_is_not; [assumption | reflexivity] ]
    | rewrite match_literal_skip_digits by first [ assumption | reflexivity ] ].

Ltac lit_miss :=
  rewrite fold_left_step;
  rewrite parseToken_literal_miss
    by (cbn [Moment.input]; lit_skip; first [ reflexivity | assumption ]).

Ltac lit_hit :=
  rewrite fold_left_step;
  erewrite parseToken_literal_hit
    by (cbn [Moment.input]; lit_skip; apply match_literal_here);
  cbn [Moment.a_year Moment.a_month Moment.a_date Moment.a_hour
         Moment.a_minute Moment.a_second Moment.empty].

Ltac digits_in :=
  rewrite fold_left_step;
  erewrite parseToken_numeric;
  [ cbn [Moment.store Moment.a_year Moment.a_month Moment.a_date Moment.a_hour
           Moment.a_minute Moment.a_second Moment.empty]
  | intros ?; discriminate
  | cbn [Moment.input Moment.width];
    repeat (rewrite match_digits_skip by reflexivity);
    first [ apply match_digits_2 | apply match_digits_4 ]; assumption ].

(** The tokens of the date consume the date and the blank after it,
    whatever follows, as long as no slash follows. *)
Lemma parse_date_tokens (sign : string)
      (a1 a2 b1 b2 y1 y2 y3 y4 : ascii) (more tail : string) :
  sign = "" \/ sign = "-" ->
  Moment.is_digit a1 = true -> Moment.is_digit a2 = true ->
  Moment.is_digit b1 = true -> Moment.is_digit b2 = true ->
  Moment.is_digit y1 = true -> Moment.is_digit y2 = true ->
  Moment.is_digit y3 = true -> Moment.is_digit y4 = true ->
  Moment.all_digits more = true ->
  Moment.match_literal "/" tail = None ->
  fold_left Moment.parseToken Clock.date_tokens
    (Moment.mkConfig
       (String a1 (String a2 (String "-" (String b1 (String b2 (String "-"
          (sign ++ String y1 (String y2 (String y3 (String y4
             (more ++ String " " tail)))))))))))
       None None None None None None true)
  = Moment.mkConfig tail
      (Some (Moment.toInt (String y1 (String y2 (String y3 (String y4 ""))))))
      (Some (Moment.toInt (String a1 (String a2 "")) - 1))
      (Some (Moment.toInt (String b1 (String b2 ""))))
      None None None false.
Proof.
  intros Hsign Ha1 Ha2 Hb1 Hb2 Hy1 Hy2 Hy3 Hy4 Hmore Htail.
  unfold Clock.date_tokens.
  destruct Hsign as [-> | ->]; cbn [append].
  - digits_in. lit_miss. digits_in. lit_miss. digits_in. lit_hit. reflexivity.
  - digits_in. lit_miss. digits_in. lit_miss. digits_in. lit_hit. reflexivity.
Qed.

(** The same on the date as [format] writes it. *)
Lemma date_prefix_parsed (f : Moment.fields) (tail : string) :
  Moment.calendar_date f ->
  Moment.match_literal "/" tail = None ->
  fold_left Moment.parseToken Clock.date_tokens
    (Moment.mkConfig
       (Moment.format (Moment.Valid f utcOffset) Moment.MM_DD_YYYY ++ " " ++ tail)
       None None None None None None true)
  = Moment.mkConfig tail
      (Some (Moment.year_read_back (Moment.year f)))
      (Some (Moment.month f)) (Some (Moment.date f))
      None None None false.
Proof.
  intros (Hmo & Hd) Htail.
  pose proof (daysInMonth_le_31 (Moment.year f) Hmo) as H31.
  destruct (zeroFill_4_shape (Moment.year f))
    as (sign & y1 & y2 & y3 & y4 & more & Hz & Hsign & Hy1 & Hy2 & Hy3 & Hy4 & Hmore).
  assert (Hback : Moment.year_read_back (Moment.year f)
                  = Moment.toInt (String y1 (String y2 (String y3 (String y4 ""))))).
  { unfold Moment.year_read_back. rewrite Hz.
    destruct Hsign as [-> | ->]; cbn [append];
      rewrite ?match_digits_skip by reflexivity;
      now rewrite match_digits_4. }
  destruct (digits_of_two (n := Moment.month f + 1)) as (Ha1 & Ha2 & Ha); [lia|].
  destruct (digits_of_two (n := Moment.date f)) as (Hb1 & Hb2 & Hb); [lia|].
  rewrite format_MM_DD_YYYY.
  rewrite !zeroFill_2 by lia. rewrite Hz.
  cbn [append]. rewrite !append_assoc. cbn [append].
  rewrite parse_date_tokens; auto using is_digit_digit_char.
  rewrite <- Hback, !toInt_2, !digit_value_digit_char by assumption.
  replace (10 * ((Moment.month f + 1) / 10) + (Moment.month f + 1) mod 10 - 1)
    with (Moment.month f) by lia.
  now rewrite Hb.
Qed.

(** [moment(string, format)] on a stamp's date followed by any slash-free
    text: the date is read first, then the time tokens run on the text. *)
Lemma parse_after_date (currentDate f : Moment.fields) (tail : string) :
  Moment.calendar_date f ->
  Moment.match_literal "/" tail = None ->
  Moment.parse localOffset currentDate
    (Moment.format (Moment.Valid f utcOffset) Moment.MM_DD_YYYY ++ " " ++ tail)
    Moment.MM_DD_YYYY_HH_mm_ss
  = let cfg :=
      fold_left Moment.parseToken Clock.time_tokens
        (Moment.mkConfig tail
           (Some (Moment.year_read_back (Moment.year f)))
           (Some (Moment.month f)) (Some (Moment.date f))
           None None None false) in
    let g := Moment.configFromArray currentDate cfg in
    if Moment.empty cfg || Moment.overflow g then Moment.Invalid
    else if Moment.hour g =? 24
         then Moment.Valid
                (Moment.addDay
                   (Moment.mkFields (Moment.year g) (Moment.month g)
                                    (Moment.date g) 0 0 0 0))
                localOffset
         else Moment.Valid g localOffset.
Proof.
  intros Hcal Htail. unfold Moment.parse.
  change Moment.MM_DD_YYYY_HH_mm_ss
    with (Clock.date_tokens ++ Clock.time_tokens)%list.
  rewrite fold_left_app, date_prefix_parsed by assumption. reflexivity.
Qed.

(** *** Text without digits *)







(** *** HH:mm and 24:00:00 *)








End LenientFacts.

(** ** The window: more on what [handleCumulativeReset] accepts *)

Section WindowFacts.

Local Open Scope string_scope.
Local Open Scope Z_scope.

Variables localOffset utcOffset : Z.

(** The tokens of the time of day leave year, month and day alone. *)
Lemma time_token_keeps_date (tok : Moment.token) (cfg : Moment.config) :
  In tok Clock.time_tokens ->
  Moment.a_year (Moment.parseToken cfg tok) = Moment.a_year cfg
  /\ Moment.a_month (Moment.parseToken cfg tok) = Moment.a_month cfg
  /\ Moment.a_date (Moment.parseToken cfg tok) = Moment.a_date cfg.
Proof.
  unfold Clock.time_tokens. simpl.
  intros [<-|[<-|[<-|[<-|[<-|[]]]]]]; unfold Moment.parseToken;
    try (destruct (Moment.match_digits _ _) as [[p r]|]; simpl; auto);
    destruct (Moment.match_literal _ _); simpl; auto.
Qed.

Lemma time_tokens_keep_date (toks : list Moment.token) :
  (forall tok, In tok toks -> In tok Clock.time_tokens) ->
  forall cfg,
    Moment.a_year (fold_left Moment.parseToken toks cfg) = Moment.a_year cfg
    /\ Moment.a_month (fold_left Moment.parseToken toks cfg) = Moment.a_month cfg
    /\ Moment.a_date (fold_left Moment.parseToken toks cfg) = Moment.a_date cfg.
Proof.
  induction toks as [|tok toks IH]; intros Hin cfg; simpl; [auto|].
  destruct (IH (fun t Ht => Hin t (or_intror Ht)) (Moment.parseToken cfg tok))
    as (Hy & Hm & Hd).
  destruct (@time_token_keeps_date tok cfg (Hin tok (or_introl eq_refl)))
    as (Hy' & Hm' & Hd').
  rewrite Hy, Hm, Hd. auto.
Qed.

(** With a year parsed, the current date is not read. *)
Lemma configFromArray_with_year (d1 d2 : Moment.fields) (cfg : Moment.config) :
  Moment.a_year cfg <> None ->
  Moment.configFromArray d1 cfg = Moment.configFromArray d2 cfg.
Proof.
  unfold Moment.configFromArray. destruct (Moment.a_year cfg); [reflexivity|].
  intros H. now elim H.
Qed.

Lemma parse_ignores_current_date (d1 d2 f : Moment.fields) (tail : string) :
  Moment.calendar_date f ->
  Moment.match_literal "/" tail = None ->
  Moment.parse localOffset d1
    (Moment.format (Moment.Valid f utcOffset) Moment.MM_DD_YYYY ++ " " ++ tail)
    Moment.MM_DD_YYYY_HH_mm_ss
  = Moment.parse localOffset d2
      (Moment.format (Moment.Valid f utcOffset) Moment.MM_DD_YYYY ++ " " ++ tail)
      Moment.MM_DD_YYYY_HH_mm_ss.
Proof.
  intros Hcal Htail. rewrite !parse_after_date by assumption. cbn zeta.
  rewrite (@configFromArray_with_year d1 d2); [reflexivity|].
  destruct (@time_tokens_keep_date Clock.time_tokens (fun t H => H)
              (Moment.mkConfig tail
                 (Some (Moment.year_read_back (Moment.year f)))
                 (Some (Moment.month f)) (Some (Moment.date f))
                 None None None false)) as (Hy & _).
  rewrite Hy. discriminate.
Qed.

End WindowFacts.

(** X7.  For window strings without a slash, whatever else they hold,
    [handleCumulativeReset] does not depend on the day it runs on: the date
    moment would borrow from the clock is never needed, since the stamp's
    own date is always read first. *)
Theorem reset_ignores_the_current_date
        (localOffset : Z) (d1 d2 : Moment.fields) (cumulativeReset : bool)
        (resetStart resetEnd : string) (startTimestamp : Moment.t) :
  Moment.match_literal "/" resetStart = None ->
  Moment.match_literal "/" resetEnd = None ->
  (forall f utcOffset,
     startTimestamp = Moment.Valid f utcOffset -> Moment.calendar_date f) ->
  Reset.handleCumulativeReset localOffset d1 cumulativeReset
    resetStart resetEnd startTimestamp
  = Reset.handleCumulativeReset localOffset d2 cumulativeReset
      resetStart resetEnd startTimestamp.
Proof.
  intros Hs He Hcal. destruct cumulativeReset; [|reflexivity].
  rewrite !handleCumulativeReset_enabled.
  destruct startTimestamp as [|f utcOffset].
  { rewrite 2!isSameOrAfter_invalid_l. cbn [andb]. reflexivity. }
  specialize (Hcal f utcOffset eq_refl).
  now rewrite (@parse_ignores_current_date localOffset utcOffset d1 d2 f resetStart),
              (@parse_ignores_current_date localOffset utcOffset d1 d2 f resetEnd).
Qed.

Lemma reset_ignores_the_current_date_witness :
  Reset.handleCumulativeReset Sample.utc Sample.today true "23 h" "23:59"
    (Moment.Valid Sample.late_evening Sample.utc)
  = Reset.handleCumulativeReset Sample.utc Sample.late_evening true "23 h" "23:59"
      (Moment.Valid Sample.late_evening Sample.utc).
Proof.
  apply (reset_ignores_the_current_date Sample.utc Sample.today
           Sample.late_evening true "23 h" "23:59"
           (startTimestamp := Moment.Valid Sample.late_evening Sample.utc)).
  - reflexivity.
  - reflexivity.
  - intros f utcOffset Hf. injection Hf as <- _.
    unfold Moment.calendar_date. repeat split; apply Z.leb_le; reflexivity.
Defined.



(** X9.  For a stamp whose year is below 0 or above 9999 the window is
    placed in another year, and [handleCumulativeReset] returns false for
    every window of two times of day, also when the stamp's time of day
    lies inside it.  The stamp may have any offset from UTC less than two
    days away from that of the process. *)
Theorem reset_false_outside_four_digit_years
        (localOffset : Z) (currentDate f : Moment.fields) (utcOffset : Z)
        (cumulativeReset : bool) (h1 m1 s1 h2 m2 s2 : Z) :
  Moment.calendar_date f -> Clock.clock_fields f ->
  Clock.offsets_apart utcOffset localOffset ->
  Reset.clock_time h1 m1 s1 -> Reset.clock_time h2 m2 s2 ->
  ~ Moment.four_digit_year f ->
  Reset.handleCumulativeReset localOffset currentDate cumulativeReset
    (Reset.time_of_day h1 m1 s1) (Reset.time_of_day h2 m2 s2)
    (Moment.Valid f utcOffset)
  = false.
Proof.
  intros Hcal Hf Hoff Hc1 Hc2 Hyear.
  destruct cumulativeReset; [|reflexivity].
  rewrite handleCumulativeReset_enabled, !parse_on_date by assumption.
  destruct (Z.ltb _ (Moment.date f)); [reflexivity|].
  pose proof (year_read_back_range (Moment.year f)) as Hback.
  apply not_true_is_false. intros H.
  apply andb_true_iff in H as [Hs He].
  apply isSameOrAfter_valid in Hs. apply isSameOrBefore_valid in He.
  unfold Moment.valueOf, Moment.time in Hs, He.
  cbn [Moment.year Moment.month Moment.date Moment.hour Moment.minute
         Moment.second Moment.millisecond] in Hs, He.
  unfold Moment.four_digit_year in Hyear.
  unfold Clock.clock_fields in Hf. unfold Reset.clock_time in Hc1, Hc2.
  unfold Clock.offsets_apart in Hoff.
  assert (Hcase : (Moment.year f < Moment.year_read_back (Moment.year f)
                   \/ Moment.year_read_back (Moment.year f) < Moment.year f)%Z)
    by lia.
  destruct Hcase as [Hlt|Hlt];
    pose proof (@daysFromCivil_year_apart _ _ (Moment.month f + 1)%Z
                  (Moment.date f) Hlt);
    lia.
Qed.

Lemma reset_false_outside_four_digit_years_witness :
  Reset.handleCumulativeReset Sample.utc Sample.today true
    (Reset.time_of_day 0 0 0) (Reset.time_of_day 23 59 59)
    (Moment.Valid (Moment.mkFields 10000 0 1 12 0 0 0) Sample.two_hours_ahead)
  = false.
Proof.
  apply (@reset_false_outside_four_digit_years Sample.utc Sample.today
           (Moment.mkFields 10000 0 1 12 0 0 0) Sample.two_hours_ahead true
           0 0 0 23 59 59).
  - unfold Moment.calendar_date. repeat split; apply Z.leb_le; reflexivity.
  - unfold Clock.clock_fields. repeat split; apply Z.leb_le; reflexivity.
  - unfold Clock.offsets_apart. split; reflexivity.
  - unfold Reset.clock_time. repeat split; apply Z.leb_le; reflexivity.
  - unfold Reset.clock_time. repeat split; apply Z.leb_le; reflexivity.
  - unfold Moment.four_digit_year. simpl. lia.
Defined.







(** ** The preferences form: what the predicates mean *)

Section PredicateFacts.

Variable V : Type.
Variable Number : V -> spec_float.
Variable moment : V -> Moment.t.
Variables MIN_VAL MAX_VAL MAX_ERRORS : spec_float.
Variable pref : Preferences.PreferenceRequestItem V.

Lemma SFcompare_antisym (a b : spec_float) :
  SFcompare b a = option_map CompOpp (SFcompare a b).
Proof.
  destruct a as [sa|sa| |sa ma ea], b as [sb|sb| |sb mb eb]; simpl;
    try reflexivity; try (destruct sa; reflexivity);
    try (destruct sb; reflexivity);
    try (destruct sa, sb; reflexivity).
  destruct sa, sb; simpl; try reflexivity;
    rewrite (Z.compare_antisym ea eb);
    destruct (Z.compare ea eb); simpl; try reflexivity;
    rewrite (Pos.compare_cont_antisym ma mb Eq); simpl;
    now rewrite ?CompOpp_involutive.
Qed.

Lemma SFcompare_numbers (a b : spec_float) :
  Js.is_nan a = false -> Js.is_nan b = false ->
  exists c, SFcompare a b = Some c.
Proof.
  destruct a, b; simpl; intros Ha Hb; try discriminate; eexists; reflexivity.
Qed.

(** On numbers, "not less" is "greater or equal". *)
Lemma not_lt_is_ge (a b : spec_float) :
  Js.is_nan a = false -> Js.is_nan b = false ->
  (SFltb a b = false <-> SFleb b a = true).
Proof.
  intros Ha Hb. unfold SFltb, SFleb. rewrite (SFcompare_antisym a b).
  destruct (SFcompare_numbers a b Ha Hb) as (c & ->).
  destruct c; simpl; split; congruence.
Qed.

Lemma lt_nan_l (b : spec_float) : SFltb S754_nan b = false.
Proof. reflexivity. Qed.

Lemma lt_nan_r (a : spec_float) : SFltb a S754_nan = false.
Proof. now destruct a. Qed.

End PredicateFacts.

(** X13.  A numeric field that [Number] reads as NaN (text that is no
    number, a missing value) is never reported: with NaN for the minimum
    value [invalidMinValue] is false, with NaN for the maximum value
    [invalidMaxValue] is false, and likewise for the reading gap, the
    maximum errors, the file size limit and the warning file size. *)
Theorem nan_is_never_reported
        (V : Type) (Number : V -> spec_float)
        (MIN_VAL MAX_VAL MAX_ERRORS : spec_float)
        (pref : Preferences.PreferenceRequestItem V) :
  (Number (Preferences.defaultMeterMinimumValue pref) = S754_nan ->
   Preferences.invalidMinValue Number MIN_VAL pref = false)
  /\ (Number (Preferences.defaultMeterMaximumValue pref) = S754_nan ->
      Preferences.invalidMaxValue Number MAX_VAL pref = false)
  /\ (Number (Preferences.defaultMeterReadingGap pref) = S754_nan ->
      Preferences.invalidReadingGap Number pref = false)
  /\ (Number (Preferences.defaultMeterMaximumErrors pref) = S754_nan ->
      Preferences.invalidMeterErrors Number MAX_ERRORS pref = false)
  /\ (Number (Preferences.defaultFileSizeLimit pref) = S754_nan ->
      Preferences.invalidFileSizeLimit Number pref = false)
  /\ (Number (Preferences.defaultWarningFileSize pref) = S754_nan ->
      Preferences.invalidWarningFileSize Number pref = false).
Proof.
  unfold Preferences.invalidMinValue, Preferences.invalidMaxValue,
         Preferences.invalidReadingGap, Preferences.invalidMeterErrors,
         Preferences.invalidFileSizeLimit, Preferences.invalidWarningFileSize,
         Preferences.lt, Preferences.gt.
  repeat split; intros ->; now rewrite ?lt_nan_l, ?lt_nan_r.
Qed.

Lemma nan_is_never_reported_witness :
  Preferences.invalidReadingGap FormSample.not_a_number Sample.bad_gap = false
  /\ Preferences.invalidReadingGap Sample.number_of Sample.bad_gap = true.
Proof.
  split; [|reflexivity].
  apply (proj1 (proj2 (proj2 (nan_is_never_reported FormSample.not_a_number
                                Sample.MIN_VAL Sample.MAX_VAL Sample.MAX_ERRORS
                                Sample.bad_gap)))).
  reflexivity.
Defined.

(** X14.  When the two value fields are numbers and so are the bounds,
    neither [invalidMinValue] nor [invalidMaxValue] holds exactly when
    MIN_VAL <= minimum <= maximum <= MAX_VAL: the bounds are allowed
    values and the minimum may equal the maximum. *)
Theorem values_valid_iff_ordered
        (V : Type) (Number : V -> spec_float) (MIN_VAL MAX_VAL : spec_float)
        (pref : Preferences.PreferenceRequestItem V) :
  Js.is_nan (Number (Preferences.defaultMeterMinimumValue pref)) = false ->
  Js.is_nan (Number (Preferences.defaultMeterMaximumValue pref)) = false ->
  Js.is_nan MIN_VAL = false -> Js.is_nan MAX_VAL = false ->
  (Preferences.invalidMinValue Number MIN_VAL pref = false
   /\ Preferences.invalidMaxValue Number MAX_VAL pref = false
   <-> Preferences.le MIN_VAL (Number (Preferences.defaultMeterMinimumValue pref)) = true
       /\ Preferences.le (Number (Preferences.defaultMeterMinimumValue pref))
                         (Number (Preferences.defaultMeterMaximumValue pref)) = true
       /\ Preferences.le (Number (Preferences.defaultMeterMaximumValue pref)) MAX_VAL
          = true).
Proof.
  intros Hmin Hmax Hlo Hhi.
  unfold Preferences.invalidMinValue, Preferences.invalidMaxValue,
         Preferences.lt, Preferences.gt, Preferences.le.
  rewrite !orb_false_iff.
  rewrite (not_lt_is_ge _ _ Hmin Hlo), (not_lt_is_ge _ _ Hmax Hmin),
          (not_lt_is_ge _ _ Hhi Hmax).
  tauto.
Qed.

Lemma values_valid_iff_ordered_witness :
  Preferences.invalidMinValue Sample.number_of Sample.MIN_VAL Sample.preferences
  = false
  /\ Preferences.invalidMaxValue Sample.number_of Sample.MAX_VAL Sample.preferences
     = false.
Proof.
  apply (values_valid_iff_ordered Sample.number_of Sample.MIN_VAL Sample.MAX_VAL
           Sample.preferences); try reflexivity.
  repeat split; reflexivity.
Defined.

(** X20.  For the other numeric fields, read as numbers: the reading gap
    and the file size limit are accepted from 0 on, the maximum errors
    from 0 to MAX_ERRORS and the warning file size from 0 to the file size
    limit, the ends included. *)
Theorem bounded_fields_valid_iff_in_range
        (V : Type) (Number : V -> spec_float) (MAX_ERRORS : spec_float)
        (pref : Preferences.PreferenceRequestItem V) :
  Js.is_nan (Number (Preferences.defaultMeterReadingGap pref)) = false ->
  Js.is_nan (Number (Preferences.defaultMeterMaximumErrors pref)) = false ->
  Js.is_nan (Number (Preferences.defaultFileSizeLimit pref)) = false ->
  Js.is_nan (Number (Preferences.defaultWarningFileSize pref)) = false ->
  Js.is_nan MAX_ERRORS = false ->
  (Preferences.invalidReadingGap Number pref = false
   <-> Preferences.le Preferences.zero
         (Number (Preferences.defaultMeterReadingGap pref)) = true)
  /\ (Preferences.invalidMeterErrors Number MAX_ERRORS pref = false
      <-> Preferences.le Preferences.zero
            (Number (Preferences.defaultMeterMaximumErrors pref)) = true
          /\ Preferences.le (Number (Preferences.defaultMeterMaximumErrors pref))
                            MAX_ERRORS = true)
  /\ (Preferences.invalidFileSizeLimit Number pref = false
      <-> Preferences.le Preferences.zero
            (Number (Preferences.defaultFileSizeLimit pref)) = true)
  /\ (Preferences.invalidWarningFileSize Number pref = false
      <-> Preferences.le Preferences.zero
            (Number (Preferences.defaultWarningFileSize pref)) = true
          /\ Preferences.le (Number (Preferences.defaultWarningFileSize pref))
                            (Number (Preferences.defaultFileSizeLimit pref)) = true).
Proof.
  intros Hgap Herr Hlimit Hwarn Hmax.
  assert (Hzero : Js.is_nan Preferences.zero = false) by reflexivity.
  unfold Preferences.invalidReadingGap, Preferences.invalidMeterErrors,
         Preferences.invalidFileSizeLimit, Preferences.invalidWarningFileSize,
         Preferences.lt, Preferences.gt, Preferences.le.
  rewrite !orb_false_iff.
  rewrite (not_lt_is_ge _ _ Hgap Hzero), (not_lt_is_ge _ _ Herr Hzero),
          (not_lt_is_ge _ _ Hmax Herr), (not_lt_is_ge _ _ Hlimit Hzero),
          (not_lt_is_ge _ _ Hwarn Hzero), (not_lt_is_ge _ _ Hlimit Hwarn).
  tauto.
Qed.

Lemma bounded_fields_valid_iff_in_range_witness :
  Preferences.invalidReadingGap Sample.number_of Sample.preferences = false
  <-> Preferences.le Preferences.zero
        (Sample.number_of (Preferences.defaultMeterReadingGap Sample.preferences))
      = true.
Proof.
  apply (bounded_fields_valid_iff_in_range Sample.number_of Sample.MAX_ERRORS
           Sample.preferences); reflexivity.
Defined.

(** X15.  With valid bounds, neither [invalidMinDate] nor [invalidMaxDate]
    holds exactly when both dates are valid moments and
    MIN_DATE <= minimum date <= maximum date <= MAX_DATE, as instants; and
    a date that is no valid moment makes both predicates hold, not only
    its own. *)
Theorem dates_valid_iff_ordered
        (V : Type) (moment : V -> Moment.t) (lo hi : Moment.fields)
        (olo ohi : Z) (pref : Preferences.PreferenceRequestItem V) :
  (Preferences.invalidMinDate moment (Moment.Valid lo olo) pref = false
   /\ Preferences.invalidMaxDate moment (Moment.Valid hi ohi) pref = false
   <-> exists a oa b ob,
         moment (Preferences.defaultMeterMinimumDate pref) = Moment.Valid a oa
         /\ moment (Preferences.defaultMeterMaximumDate pref) = Moment.Valid b ob
         /\ (Moment.valueOf lo olo <= Moment.valueOf a oa)%Z
         /\ (Moment.valueOf a oa <= Moment.valueOf b ob)%Z
         /\ (Moment.valueOf b ob <= Moment.valueOf hi ohi)%Z)
  /\ (Moment.isValid (moment (Preferences.defaultMeterMinimumDate pref)) = false
      \/ Moment.isValid (moment (Preferences.defaultMeterMaximumDate pref)) = false ->
      Preferences.invalidMinDate moment (Moment.Valid lo olo) pref = true
      /\ Preferences.invalidMaxDate moment (Moment.Valid hi ohi) pref = true).
Proof.
  unfold Preferences.invalidMinDate, Preferences.invalidMaxDate.
  destruct (moment (Preferences.defaultMeterMinimumDate pref)) as [|a oa],
           (moment (Preferences.defaultMeterMaximumDate pref)) as [|b ob];
    cbn [Moment.isValid negb orb].
  - split; [|auto]. split; [intros [H _]; discriminate|].
    intros (a & oa & b & ob & H & _); discriminate.
  - split.
    + split; [intros [H _]; discriminate|].
      intros (a & oa & b' & ob' & H & _); discriminate.
    + intros _. split; [reflexivity|].
      rewrite isSameOrAfter_invalid_r. cbn [negb]. apply orb_true_r.
  - split.
    + split.
      * intros [H _]. rewrite isSameOrBefore_invalid_r in H.
        cbn [negb] in H. rewrite orb_true_r in H. discriminate.
      * intros (a' & oa' & b & ob & _ & H & _); discriminate.
    + intros _. split; [|reflexivity].
      rewrite isSameOrBefore_invalid_r. cbn [negb]. apply orb_true_r.
  - split.
    + rewrite !orb_false_iff, !negb_false_iff.
      rewrite !isSameOrAfter_valid, !isSameOrBefore_valid. split.
      * intros [[Hlo Hab] [Hhi _]]. exists a, oa, b, ob. auto.
      * intros (a' & oa' & b' & ob' & Ea & Eb & Hlo & Hab & Hhi).
        injection Ea as <- <-. injection Eb as <- <-. auto.
    + intros [H|H]; discriminate.
Qed.

Lemma dates_valid_iff_ordered_witness :
  Preferences.invalidMinDate FormSample.not_a_date
    (Moment.Valid (Moment.mkFields 1970 0 1 0 0 0 0) Sample.utc) Sample.preferences = true
  /\ Preferences.invalidMaxDate FormSample.not_a_date
       (Moment.Valid (Moment.mkFields 6970 0 1 0 0 0 0) Sample.utc) Sample.preferences = true.
Proof.
  apply (proj2 (dates_valid_iff_ordered FormSample.not_a_date
                  (Moment.mkFields 1970 0 1 0 0 0 0)
                  (Moment.mkFields 6970 0 1 0 0 0 0)
                  Sample.utc Sample.utc Sample.preferences)).
  left. reflexivity.
Defined.

(** ** The preferences form: edits, discard and submission *)

Section FormFacts.

Variable V : Type.
Variable isEqualV : V -> V -> bool.
Variable Number : V -> spec_float.
Variable moment : V -> Moment.t.
Variable duration : V -> Preferences.Duration.
Variables MIN_VAL MAX_VAL MAX_ERRORS : spec_float.
Variables MIN_DATE_MOMENT MAX_DATE_MOMENT : Moment.t.

Lemma all_keys (k : Form.key) : In k Form.keys.
Proof. destruct k; simpl; tauto. Qed.

Lemma isEqual_true (a b : Form.object V) :
  Form.isEqual isEqualV a b = true <-> forall k, isEqualV (a k) (b k) = true.
Proof.
  unfold Form.isEqual. rewrite forallb_forall. split.
  - intros H k. apply H, all_keys.
  - intros H k _. apply H.
Qed.

Lemma isEqual_false (a b : Form.object V) (k : Form.key) :
  isEqualV (a k) (b k) = false -> Form.isEqual isEqualV a b = false.
Proof.
  intros H. apply not_true_is_false. intros E.
  rewrite isEqual_true in E. rewrite E in H. discriminate.
Qed.

Lemma spread_same (o : Form.object V) (k : Form.key) (v : V) :
  Form.spread o k v k = v.
Proof. unfold Form.spread. destruct (Form.key_eq_dec k k); congruence. Qed.

Lemma spread_other (o : Form.object V) (k k' : Form.key) (v : V) :
  k' <> k -> Form.spread o k v k' = o k'.
Proof. unfold Form.spread. destruct (Form.key_eq_dec k' k); congruence. Qed.

(** The predicates read nothing of a key that is not validated. *)
Lemma item_spread (o : Form.object V) (k : Form.key) (v : V) :
  Form.validated k = false -> Form.item (Form.spread o k v) = Form.item o.
Proof.
  intros Hk. unfold Form.item.
  rewrite !spread_other by (intros <-; discriminate). reflexivity.
Qed.

(** The Submit button is disabled when nothing changed or a predicate
    holds. *)
Lemma submitDisabled_buttons (st : Form.state V) :
  Preferences.submitDisabled Number moment duration MIN_VAL MAX_VAL MAX_ERRORS
    MIN_DATE_MOMENT MAX_DATE_MOMENT (Form.buttons st)
  = negb (Form.hasChanges st)
    || Form.invalid Number moment duration MIN_VAL MAX_VAL MAX_ERRORS
         MIN_DATE_MOMENT MAX_DATE_MOMENT (Form.localAdminPref st).
Proof.
  unfold Preferences.submitDisabled, Form.invalid, Form.buttons.
  cbn [Preferences.localAdminPref Preferences.hasChanges].
  now rewrite !orb_assoc.
Qed.

(** After any event, and after mounting, [hasChanges] says whether the
    local copy differs from the server's preferences. *)
Lemma run_settled (data : Form.object V) (history : list (Form.event V)) :
  Form.hasChanges (Form.run isEqualV data history)
  = negb (Form.isEqual isEqualV
            (Form.adminPreferences (Form.run isEqualV data history))
            (Form.localAdminPref (Form.run isEqualV data history))).
Proof.
  unfold Form.run.
  induction history as [|e history' _] using rev_ind.
  - reflexivity.
  - rewrite fold_left_app. simpl. now destruct e.
Qed.

Lemma forallb_false (A : Type) (f : A -> bool) (l : list A) :
  forallb f l = false -> exists x, In x l /\ f x = false.
Proof.
  induction l as [|a l IH]; simpl; [discriminate|].
  destruct (f a) eqn:E.
  - intros H. destruct (IH H) as (x & Hx & Hf). exists x. auto.
  - intros _. exists a. auto.
Qed.

End FormFacts.

(** X16.  Discard brings the local copy back to the server's preferences,
    whatever was edited before: afterwards there are no changes, both
    buttons are disabled and a click on Submit sends nothing. *)
Theorem discard_restores_the_preferences
        (V : Type) (isEqualV : V -> V -> bool)
        (Number : V -> spec_float) (moment : V -> Moment.t)
        (duration : V -> Preferences.Duration)
        (MIN_VAL MAX_VAL MAX_ERRORS : spec_float)
        (MIN_DATE_MOMENT MAX_DATE_MOMENT : Moment.t)
        (st : Form.state V) :
  (forall v, isEqualV v v = true) ->
  Form.localAdminPref (Form.discardChanges isEqualV st) = Form.adminPreferences st
  /\ Form.adminPreferences (Form.discardChanges isEqualV st)
     = Form.adminPreferences st
  /\ Form.hasChanges (Form.discardChanges isEqualV st) = false
  /\ Preferences.discardDisabled
       (Form.buttons (Form.discardChanges isEqualV st)) = true
  /\ Form.submit Number moment duration MIN_VAL MAX_VAL MAX_ERRORS
       MIN_DATE_MOMENT MAX_DATE_MOMENT (Form.discardChanges isEqualV st)
     = None.
Proof.
  intros Hrefl.
  assert (Hc : Form.hasChanges (Form.discardChanges isEqualV st) = false).
  { unfold Form.discardChanges, Form.compareEffect, Form.cloneDeep.
    cbn [Form.hasChanges Form.adminPreferences Form.localAdminPref].
    apply negb_false_iff, isEqual_true. intros k. apply Hrefl. }
  repeat split.
  - exact Hc.
  - unfold Preferences.discardDisabled, Form.buttons.
    cbn [Preferences.hasChanges]. now rewrite Hc.
  - unfold Form.submit. rewrite submitDisabled_buttons, Hc. reflexivity.
Qed.

Lemma discard_restores_the_preferences_witness :
  Form.hasChanges
    (Form.discardChanges Z.eqb
       (Form.makeLocalChanges Z.eqb Form.displayTitle 7%Z
          (Form.mount Z.eqb FormSample.server)))
  = false.
Proof.
  apply (discard_restores_the_preferences Z.eqb
           Sample.number_of Sample.moment_of Sample.duration_of
           Sample.MIN_VAL Sample.MAX_VAL Sample.MAX_ERRORS
           Sample.MIN_DATE_MOMENT Sample.MAX_DATE_MOMENT
           (Form.makeLocalChanges Z.eqb Form.displayTitle 7%Z
              (Form.mount Z.eqb FormSample.server))).
  intros v. apply Z.eqb_refl.
Defined.

(** X17.  An edit changes the edited key of the local copy and no other.
    Once the effects have run there are no changes exactly when [isEqual]
    finds the new value equal to the server's value for that key and every
    other key of the local copy equal to the server's; then Submit sends
    nothing.  If [isEqual] finds the new value different from the
    server's, there are changes, whatever the two values look like. *)
Theorem edit_tracks_the_difference
        (V : Type) (isEqualV : V -> V -> bool)
        (Number : V -> spec_float) (moment : V -> Moment.t)
        (duration : V -> Preferences.Duration)
        (MIN_VAL MAX_VAL MAX_ERRORS : spec_float)
        (MIN_DATE_MOMENT MAX_DATE_MOMENT : Moment.t)
        (st : Form.state V) (k : Form.key) (value : V) :
  (Form.localAdminPref (Form.makeLocalChanges isEqualV k value st) k = value
   /\ forall k', k' <> k ->
        Form.localAdminPref (Form.makeLocalChanges isEqualV k value st) k'
        = Form.localAdminPref st k')
  /\ (Form.hasChanges (Form.makeLocalChanges isEqualV k value st) = false
      <-> isEqualV (Form.adminPreferences st k) value = true
          /\ forall k', k' <> k ->
               isEqualV (Form.adminPreferences st k') (Form.localAdminPref st k')
               = true)
  /\ (isEqualV (Form.adminPreferences st k) value = false ->
      Form.hasChanges (Form.makeLocalChanges isEqualV k value st) = true)
  /\ (Form.hasChanges (Form.makeLocalChanges isEqualV k value st) = false ->
      Form.submit Number moment duration MIN_VAL MAX_VAL MAX_ERRORS
        MIN_DATE_MOMENT MAX_DATE_MOMENT
        (Form.makeLocalChanges isEqualV k value st)
      = None).
Proof.
  split.
  { unfold Form.makeLocalChanges, Form.compareEffect.
    cbn [Form.localAdminPref].
    split; [apply spread_same | intros k' Hk'; now apply spread_other]. }
  split.
  { unfold Form.makeLocalChanges, Form.compareEffect.
    cbn [Form.hasChanges Form.adminPreferences Form.localAdminPref].
    rewrite negb_false_iff, isEqual_true. split.
    - intros H. split.
      + specialize (H k). now rewrite spread_same in H.
      + intros k' Hk'. specialize (H k'). now rewrite spread_other in H.
    - intros [Heq Hothers] k'.
      destruct (Form.key_eq_dec k' k) as [->|Hk'].
      + now rewrite spread_same.
      + rewrite spread_other by exact Hk'. now apply Hothers. }
  split.
  { unfold Form.makeLocalChanges, Form.compareEffect.
    cbn [Form.hasChanges Form.adminPreferences Form.localAdminPref].
    intros Hne. apply negb_true_iff.
    apply (@isEqual_false V isEqualV _ _ k). now rewrite spread_same. }
  intros Hc. unfold Form.submit. rewrite submitDisabled_buttons, Hc.
  reflexivity.
Qed.

Lemma edit_tracks_the_difference_witness :
  FormSample.isEqual (FormSample.number 0) (FormSample.text "0") = false
  /\ Form.hasChanges
       (Form.makeLocalChanges FormSample.isEqual Form.defaultMeterReadingGap
          (FormSample.text "0")
          (Form.mount FormSample.isEqual FormSample.typed_server)) = true
  /\ Form.hasChanges
       (Form.makeLocalChanges FormSample.isEqual Form.defaultMeterReadingGap
          (FormSample.number 0)
          (Form.makeLocalChanges FormSample.isEqual Form.defaultMeterReadingGap
             (FormSample.text "0")
             (Form.mount FormSample.isEqual FormSample.typed_server))) = false.
Proof.
  split; [reflexivity|]. split.
  - apply (proj1 (proj2 (proj2
             (@edit_tracks_the_difference FormSample.value FormSample.isEqual
                FormSample.not_a_number_value FormSample.not_a_date_value
                FormSample.duration_of_value
                Sample.MIN_VAL Sample.MAX_VAL Sample.MAX_ERRORS
                Sample.MIN_DATE_MOMENT Sample.MAX_DATE_MOMENT
                (Form.mount FormSample.isEqual FormSample.typed_server)
                Form.defaultMeterReadingGap (FormSample.text "0"))))).
    reflexivity.
  - reflexivity.
Defined.

(** X18.  The predicates read nine keys only.  An edit of any other key
    (title, language, time zone, chart and area settings, help URL,
    disable checks) leaves every predicate as it was; so when no predicate
    holds, such an edit to a value that differs from the server's enables
    Submit, and the click sends the local copy with that edit. *)
Theorem unvalidated_edit_can_be_submitted
        (V : Type) (isEqualV : V -> V -> bool)
        (Number : V -> spec_float) (moment : V -> Moment.t)
        (duration : V -> Preferences.Duration)
        (MIN_VAL MAX_VAL MAX_ERRORS : spec_float)
        (MIN_DATE_MOMENT MAX_DATE_MOMENT : Moment.t)
        (st : Form.state V) (k : Form.key) (value : V) :
  Form.validated k = false ->
  Form.invalid Number moment duration MIN_VAL MAX_VAL MAX_ERRORS
    MIN_DATE_MOMENT MAX_DATE_MOMENT
    (Form.localAdminPref (Form.makeLocalChanges isEqualV k value st))
  = Form.invalid Number moment duration MIN_VAL MAX_VAL MAX_ERRORS
      MIN_DATE_MOMENT MAX_DATE_MOMENT (Form.localAdminPref st)
  /\ (Form.invalid Number moment duration MIN_VAL MAX_VAL MAX_ERRORS
        MIN_DATE_MOMENT MAX_DATE_MOMENT (Form.localAdminPref st) = false ->
      isEqualV (Form.adminPreferences st k) value = false ->
      Form.submit Number moment duration MIN_VAL MAX_VAL MAX_ERRORS
        MIN_DATE_MOMENT MAX_DATE_MOMENT
        (Form.makeLocalChanges isEqualV k value st)
      = Some (Form.spread (Form.localAdminPref st) k value)).
Proof.
  intros Hk.
  assert (Hinv :
    Form.invalid Number moment duration MIN_VAL MAX_VAL MAX_ERRORS
      MIN_DATE_MOMENT MAX_DATE_MOMENT
      (Form.localAdminPref (Form.makeLocalChanges isEqualV k value st))
    = Form.invalid Number moment duration MIN_VAL MAX_VAL MAX_ERRORS
        MIN_DATE_MOMENT MAX_DATE_MOMENT (Form.localAdminPref st)).
  { unfold Form.makeLocalChanges, Form.compareEffect, Form.invalid.
    cbn [Form.localAdminPref]. now rewrite !item_spread by exact Hk. }
  split; [exact Hinv|]. intros Hvalid Hne.
  unfold Form.submit. rewrite submitDisabled_buttons, Hinv, Hvalid.
  unfold Form.makeLocalChanges, Form.compareEffect.
  cbn [Form.hasChanges Form.adminPreferences Form.localAdminPref].
  rewrite (@isEqual_false V isEqualV _ _ k) by now rewrite spread_same.
  reflexivity.
Qed.

Lemma unvalidated_edit_can_be_submitted_witness :
  FormSample.submit
    (Form.makeLocalChanges Z.eqb Form.displayTitle 7%Z
       (Form.mount Z.eqb FormSample.server))
  = Some (Form.spread
            (Form.localAdminPref (Form.mount Z.eqb FormSample.server))
            Form.displayTitle 7%Z).
Proof.
  apply (proj2 (@unvalidated_edit_can_be_submitted Z Z.eqb
                  Sample.number_of Sample.moment_of Sample.duration_of
                  Sample.MIN_VAL Sample.MAX_VAL Sample.MAX_ERRORS
                  Sample.MIN_DATE_MOMENT Sample.MAX_DATE_MOMENT
                  (Form.mount Z.eqb FormSample.server)
                  Form.displayTitle 7%Z eq_refl));
    reflexivity.
Defined.

(** X19.  Whatever the history of edits, discards and answers of the
    query, a click on Submit sends only the local copy as it then is, only
    when it differs from the server's preferences on some key, and only
    when none of the nine predicates holds of it. *)
Theorem submit_sends_changed_valid_preferences
        (V : Type) (isEqualV : V -> V -> bool)
        (Number : V -> spec_float) (moment : V -> Moment.t)
        (duration : V -> Preferences.Duration)
        (MIN_VAL MAX_VAL MAX_ERRORS : spec_float)
        (MIN_DATE_MOMENT MAX_DATE_MOMENT : Moment.t)
        (data : Form.object V) (history : list (Form.event V))
        (request : Form.object V) :
  Form.submit Number moment duration MIN_VAL MAX_VAL MAX_ERRORS
    MIN_DATE_MOMENT MAX_DATE_MOMENT (Form.run isEqualV data history)
  = Some request ->
  request = Form.localAdminPref (Form.run isEqualV data history)
  /\ (exists k,
        isEqualV (Form.adminPreferences (Form.run isEqualV data history) k)
                 (request k) = false)
  /\ Form.invalid Number moment duration MIN_VAL MAX_VAL MAX_ERRORS
       MIN_DATE_MOMENT MAX_DATE_MOMENT request = false.
Proof.
  unfold Form.submit. rewrite submitDisabled_buttons, run_settled.
  rewrite negb_involutive.
  destruct (Form.isEqual isEqualV _ _) eqn:Heq; [discriminate|].
  destruct (Form.invalid _ _ _ _ _ _ _ _ _) eqn:Hinv; [discriminate|].
  cbn [orb]. intros H. injection H as <-.
  repeat split; [|exact Hinv].
  unfold Form.isEqual in Heq.
  destruct (forallb_false _ _ Heq) as (k & _ & Hk).
  now exists k.
Qed.

Lemma submit_sends_changed_valid_preferences_witness :
  FormSample.submit
    (Form.run Z.eqb FormSample.server
       [Form.Edit Form.displayTitle 7%Z; Form.Discard Z;
        Form.Edit Form.defaultHelpUrl 3%Z])
  = Some (Form.localAdminPref
            (Form.run Z.eqb FormSample.server
               [Form.Edit Form.displayTitle 7%Z; Form.Discard Z;
                Form.Edit Form.defaultHelpUrl 3%Z]))
  /\ FormSample.submit
       (Form.run Z.eqb FormSample.server
          [Form.Edit Form.displayTitle 7%Z; Form.Discard Z]) = None
  /\ Form.invalid Sample.number_of Sample.moment_of Sample.duration_of
       Sample.MIN_VAL Sample.MAX_VAL Sample.MAX_ERRORS
       Sample.MIN_DATE_MOMENT Sample.MAX_DATE_MOMENT
       (Form.localAdminPref
          (Form.run Z.eqb FormSample.server
             [Form.Edit Form.displayTitle 7%Z; Form.Discard Z;
              Form.Edit Form.defaultHelpUrl 3%Z]))
     = false.
Proof.
  split; [reflexivity|]. split; [reflexivity|].
  apply (@submit_sends_changed_valid_preferences Z Z.eqb
           Sample.number_of Sample.moment_of Sample.duration_of
           Sample.MIN_VAL Sample.MAX_VAL Sample.MAX_ERRORS
           Sample.MIN_DATE_MOMENT Sample.MAX_DATE_MOMENT
           FormSample.server
           [Form.Edit Form.displayTitle 7%Z; Form.Discard Z;
            Form.Edit Form.defaultHelpUrl 3%Z]
           (Form.localAdminPref
              (Form.run Z.eqb FormSample.server
                 [Form.Edit Form.displayTitle 7%Z; Form.Discard Z;
                  Form.Edit Form.defaultHelpUrl 3%Z]))).
  reflexivity.
Defined.
